(** * chaitanya-water: the order-taking application of [app.py]

    A shallow embedding of the Flask handlers of [app.py] and the
    properties of its session, access-control and order-lifecycle model.

    Conventions of the embedding.
    - A Python [str] is kept as its UTF-8 encoding, a byte string; form
      values and columns are well-formed UTF-8.  [str.strip] is modelled on
      the encoding, for every whitespace character of Python.
    - [int] on a [str], whose grammar and limits depend on the interpreter,
      is a parameter [int] of the handlers that call it; [None] is its
      [ValueError].
    - The integer columns are SQLite INTEGERs: binding an integer outside
      the signed 64-bit range raises [OverflowError], which the handlers do
      not catch, so the request ends in a 500.
    - [session] is the signed Flask session.  The handlers only ever store
      a [str] under ["customer_phone"], an [int] primary key under
      ["staff_id"] and the flash queue under ["_flashes"], so the session
      is a record of these three slots; an absent key is [None].
    - [request.form] is a finite map from field names to submitted text.
    - The two tables are finite maps from the integer primary key to the
      row; a unit of work ending in [db.session.commit()] is one update
      of the table.
    - A handler is a function from the request and the state before to the
      response and the state after.  Decorators are functions on handlers.
    - Templates are not part of [app.py]: a rendered page is kept as the
      template together with the values handed to it, and the consumption
      of flashed messages by a template is not modelled. *)

From Stdlib Require Import ZArith String Ascii DecimalString DecimalZ.
From stdpp Require Import base option list sorting gmap strings fin_maps.

Local Open Scope Z_scope.

(** ** Python strings *)

(** [str.isspace] on a character of one byte: TAB, LF, VT, FF, CR, the
    four separators FS, GS, RS, US, and the space. *)
Definition isspace (c : ascii) : bool :=
  let n := nat_of_ascii c in
  ((9 <=? n) && (n <=? 13) || (28 <=? n) && (n <=? 32))%nat.

(** [str.isspace] on a character of two bytes: U+0085 (C2 85) and
    U+00A0 (C2 A0). *)
Definition isspace2 (c1 c2 : ascii) : bool :=
  let n1 := nat_of_ascii c1 in
  let n2 := nat_of_ascii c2 in
  ((n1 =? 194) && ((n2 =? 133) || (n2 =? 160)))%nat.

(** [str.isspace] on a character of three bytes: U+1680 (E1 9A 80),
    U+2000 to U+200A (E2 80 80 to E2 80 8A), U+2028, U+2029 and U+202F
    (E2 80 A8, E2 80 A9, E2 80 AF), U+205F (E2 81 9F), U+3000 (E3 80 80).
    No character of four bytes is whitespace. *)
Definition isspace3 (c1 c2 c3 : ascii) : bool :=
  let n1 := nat_of_ascii c1 in
  let n2 := nat_of_ascii c2 in
  let n3 := nat_of_ascii c3 in
  ((n1 =? 225) && (n2 =? 154) && (n3 =? 128)
   || (n1 =? 226) && (n2 =? 128)
      && ((128 <=? n3) && (n3 <=? 138) || (n3 =? 168) || (n3 =? 169) || (n3 =? 175))
   || (n1 =? 226) && (n2 =? 129) && (n3 =? 159)
   || (n1 =? 227) && (n2 =? 128) && (n3 =? 128))%nat.

(** The text after a leading whitespace character, if there is one. *)
Definition ws_head (s : string) : option string :=
  match s with
  | EmptyString => None
  | String c1 s1 =>
      if isspace c1 then Some s1 else
      match s1 with
      | EmptyString => None
      | String c2 s2 =>
          if isspace2 c1 c2 then Some s2 else
          match s2 with
          | EmptyString => None
          | String c3 s3 => if isspace3 c1 c2 c3 then Some s3 else None
          end
      end
  end.

(** [s.lstrip()] *)
Fixpoint lstrip (s : string) : string :=
  match s with
  | EmptyString => EmptyString
  | String c1 s1 =>
      if isspace c1 then lstrip s1 else
      match s1 with
      | EmptyString => s
      | String c2 s2 =>
          if isspace2 c1 c2 then lstrip s2 else
          match s2 with
          | EmptyString => s
          | String c3 s3 => if isspace3 c1 c2 c3 then lstrip s3 else s
          end
      end
  end.

(** [s] is empty or made of whitespace characters only. *)
Fixpoint all_space (s : string) : bool :=
  match s with
  | EmptyString => true
  | String c1 s1 =>
      if isspace c1 then all_space s1 else
      match s1 with
      | EmptyString => false
      | String c2 s2 =>
          if isspace2 c1 c2 then all_space s2 else
          match s2 with
          | EmptyString => false
          | String c3 s3 => if isspace3 c1 c2 c3 then all_space s3 else false
          end
      end
  end.

(** [s.rstrip()]: the text is cut where only whitespace follows. *)
Fixpoint rstrip (s : string) : string :=
  match s with
  | EmptyString => EmptyString
  | String c s' => if all_space s then EmptyString else String c (rstrip s')
  end.

(** [s.strip()] *)
Definition strip (s : string) : string := rstrip (lstrip s).

(** [bool(s)] for a [str]: the empty string is the only false one. *)
Definition str_bool (s : string) : bool :=
  match s with EmptyString => false | String _ _ => true end.

(** [bool(v)] for a value that is a [str] or [None]. *)
Definition opt_bool (v : option string) : bool :=
  match v with Some s => str_bool s | None => false end.

(** ** Integers *)

(** An integer that SQLite stores and binds: signed, 64 bits. *)
Definition sqlite_int (n : Z) : Prop := - 2 ^ 63 ≤ n < 2 ^ 63.

Global Instance sqlite_int_dec n : Decision (sqlite_int n).
Proof. unfold sqlite_int. apply _. Defined.

(** The decimal numeral of an integer, as [str(n)] writes it. *)
Definition decimal (n : Z) : string := NilZero.string_of_int (Z.to_int n).

(** What the statements ask of [int]: it reads the decimal numeral of a
    64-bit integer as that integer. *)
Definition int_reads_decimal (int : string → option Z) : Prop :=
  ∀ n, sqlite_int n → int (decimal n) = Some n.

(** ** Models *)

Module User.
Record t := mk {
  username : string;
  password_hash : string;
  role : string                       (* admin / manager *)
}.
End User.

Module Order.
Record t := mk {
  customer_phone : string;
  customer_address : string;
  cans : Z;
  cooling : bool;
  payment_method : string;            (* 'online' / 'offline' *)
  payment_status : string;            (* pending/paid *)
  payment_details : option string;    (* nullable *)
  created_at : Z
}.
End Order.

Module Session.
Record t := mk {
  customer_phone : option string;     (* session["customer_phone"] *)
  staff_id : option Z;                (* session["staff_id"] *)
  flashes : list (string * string)    (* (category, message), oldest first *)
}.

(** [session.clear()] *)
Definition clear : t := mk None None [].
End Session.

Inductive Method := GET | POST.

Record Request := {
  method : Method;
  form : gmap string string;
  utcnow : Z                            (* the clock read by column defaults *)
}.

(** [request.form.get(key, default)] with a [str] default *)
Definition form_get (rq : Request) (key default : string) : string :=
  match form rq !! key with Some v => v | None => default end.

Record World := {
  session : Session.t;
  users : gmap Z User.t;
  orders : gmap Z Order.t
}.

Definition with_session (f : Session.t → Session.t) (w : World) : World :=
  {| session := f (session w); users := users w; orders := orders w |}.

Definition with_orders (f : gmap Z Order.t → gmap Z Order.t) (w : World) : World :=
  {| session := session w; users := users w; orders := f (orders w) |}.

(** [flash(message, category)] *)
Definition flash (message category : string) : World → World :=
  with_session (λ s,
    Session.mk (Session.customer_phone s) (Session.staff_id s)
               (Session.flashes s ++ [(category, message)])).

Inductive Page :=
| index_html (photos : list string)
| customer_dashboard_html (phone : string) (rows : list (Z * Order.t))
| staff_login_html
| staff_dashboard_html (user : option User.t) (rows : list (Z * Order.t))
| edit_order_html (order_id : Z) (order : Order.t)
| view_order_html (order_id : Z) (order : Order.t).

Inductive Response :=
| redirect (endpoint : string)          (* redirect(url_for(endpoint)) *)
| render_template (page : Page)
| body_status (body : string) (code : Z)
| abort (code : Z).                     (* 404, 405; 500 for an uncaught exception *)

Definition Handler := Request → World → Response * World.

(** The key SQLite gives the next inserted row: one more than the largest
    key in the table. *)
Definition next_id {A} (table : gmap Z A) : Z :=
  map_fold (λ k _ acc, Z.max k acc) 0 table + 1.

(** [.order_by(Order.created_at.desc()).all()]; rows with equal
    [created_at] come in the order the sort leaves them. *)
Definition newer_first (a b : Z * Order.t) : Prop :=
  Order.created_at (snd b) ≤ Order.created_at (snd a).

Global Instance newer_first_dec : RelDecision newer_first.
Proof. intros a b. unfold newer_first. apply _. Defined.

Definition order_by_created_at_desc (rows : list (Z * Order.t)) : list (Z * Order.t) :=
  merge_sort newer_first rows.

(** [User.query.filter_by(username=...).first()] *)
Definition user_by_username (table : gmap Z User.t) (name : string) : option (Z * User.t) :=
  head (filter (λ r, User.username (snd r) = name) (map_to_list table)).

(** ** Auth decorators *)

Definition require_customer (f : Handler) : Handler := λ rq w,
  match Session.customer_phone (session w) with
  | None => (redirect "index", w)
  | Some _ => f rq w
  end.

Definition pop_staff_id : World → World :=
  with_session (λ s, Session.mk (Session.customer_phone s) None (Session.flashes s)).

Definition require_staff (role : option string) (f : Handler) : Handler := λ rq w,
  match Session.staff_id (session w) with
  | None => (redirect "staff_login", w)
  | Some sid =>
      match users w !! sid with
      | None => (redirect "staff_login", pop_staff_id w)
      | Some user =>
          if opt_bool role && bool_decide (Some (User.role user) ≠ role)
          then (redirect "staff_dashboard", flash "Permission denied." "error" w)
          else f rq w
      end
  end.

(** ** Routes *)

Definition index : Handler := λ rq w,
  (render_template (index_html ["images/plant1.jpg"; "images/plant2.jpg"]), w).

Definition route_send_otp : Handler := λ rq w,
  let phone := strip (form_get rq "phone" "") in
  if negb (str_bool phone)
  then (redirect "index", flash "Enter phone number." "error" w)
  else
    let w := with_session (λ s,
               Session.mk (Some phone) (Session.staff_id s) (Session.flashes s)) w in
    (redirect "customer_dashboard", flash "Continuing with phone number." "info" w).

Definition logout : Handler := λ rq w,
  let w := with_session (λ _, Session.clear) w in
  (redirect "index", flash "Logged out." "info" w).

Definition customer_dashboard : Handler := require_customer (λ rq w,
  match Session.customer_phone (session w) with
  | None => (abort 500, w)
  | Some phone =>
      let rows := filter (λ r, Order.customer_phone (snd r) = phone)
                         (map_to_list (orders w)) in
      (render_template (customer_dashboard_html phone (order_by_created_at_desc rows)), w)
  end).

Definition place_order (int : string → option Z) : Handler := require_customer (λ rq w,
  let phone_from_form := strip (form_get rq "phone" "") in
  let phone := if str_bool phone_from_form then Some phone_from_form
               else Session.customer_phone (session w) in
  let cans := match form rq !! "cans" with
              | Some raw => default 1 (int raw)
              | None => 1
              end in
  let cooling := bool_decide (form_get rq "cooling" "no" = "yes") in
  let address := strip (form_get rq "address" "") in
  let payment_method := form_get rq "payment_method" "offline" in
  if negb (str_bool address) || negb (opt_bool phone)
  then (redirect "customer_dashboard", flash "Phone and Address are required." "error" w)
  else
    let o := Order.mk (default "" phone) address cans cooling payment_method
                      "pending" None (utcnow rq) in
    if bool_decide (sqlite_int cans)
    then
      let w := with_orders (λ t, <[next_id t := o]> t) w in
      (redirect "customer_dashboard", flash "Order placed." "success" w)
    else (abort 500, w)).              (* OverflowError at the commit *)

Section StaffLogin.
(** [werkzeug.security.check_password_hash], a black box. *)
Variable check_password_hash : string → string → bool.

Definition staff_login : Handler := λ rq w,
  match method rq with
  | POST =>
      let username := form_get rq "username" "" in
      let password := form_get rq "password" "" in
      match user_by_username (users w) username with
      | Some (uid, user) =>
          if check_password_hash (User.password_hash user) password
          then
            let w := with_session (λ s,
                       Session.mk (Session.customer_phone s) (Some uid)
                                  (Session.flashes s)) w in
            (redirect "staff_dashboard", flash "Staff login OK." "success" w)
          else (redirect "staff_login", flash "Invalid staff credentials." "error" w)
      | None => (redirect "staff_login", flash "Invalid staff credentials." "error" w)
      end
  | GET => (render_template staff_login_html, w)
  end.
End StaffLogin.

(** What [Order.query.get_or_404(order_id)] raises when no row has the
    key: 404, or the [OverflowError] of binding an id that is no 64-bit
    integer.  The key of a row is a 64-bit integer, so a row that is in the
    table is found. *)
Definition no_row (order_id : Z) : Response :=
  if bool_decide (sqlite_int order_id) then abort 404 else abort 500.

Definition staff_logout : Handler := λ rq w,
  (redirect "index", flash "Staff logged out." "info" (pop_staff_id w)).

(** [User.query.get(session["staff_id"])]: the outer [None] is the
    [KeyError] of a missing key, the inner one a key that matches no row. *)
Definition current_staff (w : World) : option (option User.t) :=
  match Session.staff_id (session w) with
  | None => None
  | Some sid => Some (users w !! sid)
  end.

Definition staff_dashboard : Handler := require_staff None (λ rq w,
  match current_staff w with
  | None => (abort 500, w)
  | Some user =>
      (render_template
         (staff_dashboard_html user (order_by_created_at_desc (map_to_list (orders w)))), w)
  end).

Definition enter_payment (order_id : Z) : Handler := require_staff None (λ rq w,
  match current_staff w with
  | None => (abort 500, w)
  | Some user =>
      match orders w !! order_id with
      | None => (no_row order_id, w)
      | Some order =>
          let payment_details := strip (form_get rq "payment_details" "") in
          if negb (str_bool payment_details)
          then (redirect "staff_dashboard", flash "Enter payment details." "error" w)
          else
            match user with
            | None => (abort 500, w)
            | Some user =>
                let order' :=
                  Order.mk (Order.customer_phone order) (Order.customer_address order)
                           (Order.cans order) (Order.cooling order)
                           (Order.payment_method order)
                           "paid"
                           (Some (User.username user +:+ ": " +:+ payment_details))
                           (Order.created_at order) in
                let w := with_orders (λ t, <[order_id := order']> t) w in
                (redirect "staff_dashboard", flash "Payment recorded." "success" w)
            end
      end
  end).

(** The row [edit_order] commits for a POST. *)
Definition apply_edit (int : string → option Z) (rq : Request) (order : Order.t) : Order.t :=
  let customer_address := form_get rq "customer_address" (Order.customer_address order) in
  let cans := match form rq !! "cans" with
              | Some raw => default (Order.cans order) (int raw)
              | None => Order.cans order
              end in
  let cooling := bool_decide (form_get rq "cooling" "no" = "yes") in
  let payment_method := form_get rq "payment_method" (Order.payment_method order) in
  let payment_status := form_get rq "payment_status" (Order.payment_status order) in
  let payment_details := match form rq !! "payment_details" with
                         | Some v => Some v
                         | None => Order.payment_details order
                         end in
  Order.mk (Order.customer_phone order) customer_address cans cooling
           payment_method payment_status payment_details (Order.created_at order).

(** The integer the [try] block of [edit_order] assigns to [order.cans],
    if it assigns one. *)
Definition assigned_cans (int : string → option Z) (rq : Request) : option Z :=
  match form rq !! "cans" with
  | Some raw => int raw
  | None => None
  end.

Definition edit_order (int : string → option Z) (order_id : Z) : Handler :=
  require_staff (Some "admin") (λ rq w,
  match orders w !! order_id with
  | None => (no_row order_id, w)
  | Some order =>
      match method rq with
      | POST =>
          if match assigned_cans int rq with
             | Some n => bool_decide (sqlite_int n)
             | None => true
             end
          then
            let w := with_orders (λ t, <[order_id := apply_edit int rq order]> t) w in
            (redirect "staff_dashboard", flash "Order updated." "success" w)
          else (abort 500, w)          (* OverflowError at the commit *)
      | GET => (render_template (edit_order_html order_id order), w)
      end
  end).

Definition delete_order (order_id : Z) : Handler := require_staff (Some "admin") (λ rq w,
  match orders w !! order_id with
  | None => (no_row order_id, w)
  | Some order =>
      let w := with_orders (λ t, delete order_id t) w in
      (redirect "staff_dashboard", flash "Order deleted." "info" w)
  end).

Definition view_order (order_id : Z) : Handler := λ rq w,
  match orders w !! order_id with
  | None => (no_row order_id, w)
  | Some order =>
      match Session.customer_phone (session w) with
      | Some phone =>
          if bool_decide (phone ≠ Order.customer_phone order)
          then (body_status "Forbidden" 403, w)
          else (render_template (view_order_html order_id order), w)
      | None => (render_template (view_order_html order_id order), w)
      end
  end.

(** ** URL map *)

Inductive Route :=
| url_index                             (* /                                   *)
| url_send_otp                          (* /send_otp                    [POST] *)
| url_logout                            (* /logout                             *)
| url_customer                          (* /customer                           *)
| url_place_order                       (* /place_order                 [POST] *)
| url_staff_login                       (* /staff/login            [GET, POST] *)
| url_staff_logout                      (* /staff/logout                       *)
| url_staff                             (* /staff                              *)
| url_enter_payment (order_id : Z)      (* /staff/order/<id>/enter_payment [POST] *)
| url_edit_order (order_id : Z)         (* /staff/order/<id>/edit  [GET, POST] *)
| url_delete_order (order_id : Z)       (* /staff/order/<id>/delete     [POST] *)
| url_view_order (order_id : Z).        (* /order/<id>                         *)

Definition only (m : Method) (f : Handler) : Handler := λ rq w,
  match m, method rq with
  | GET, GET | POST, POST => f rq w
  | _, _ => (abort 405, w)
  end.

Definition dispatch (int : string → option Z)
    (check_password_hash : string → string → bool) (r : Route) : Handler :=
  match r with
  | url_index => only GET index
  | url_send_otp => only POST route_send_otp
  | url_logout => only GET logout
  | url_customer => only GET customer_dashboard
  | url_place_order => only POST (place_order int)
  | url_staff_login => staff_login check_password_hash
  | url_staff_logout => only GET staff_logout
  | url_staff => only GET staff_dashboard
  | url_enter_payment order_id => only POST (enter_payment order_id)
  | url_edit_order order_id => edit_order int order_id
  | url_delete_order order_id => only POST (delete_order order_id)
  | url_view_order order_id => only GET (view_order order_id)
  end.

(** ** Vocabulary of the statements *)

(** The message flashed last. *)
Definition last_flash (w : World) : option (string * string) :=
  last (Session.flashes (session w)).

(** [currentCustomerPhone()] of the session manager. *)
Definition currentCustomerPhone (w : World) : option string :=
  Session.customer_phone (session w).

Definition currentStaffId (w : World) : option Z :=
  Session.staff_id (session w).

(** ** Sample data *)

Definition sample_users : gmap Z User.t :=
  {[ 1 := User.mk "boss" "pbkdf2:boss" "admin";
     2 := User.mk "mgr1" "pbkdf2:mgr1" "manager" ]}.

Definition sample_order : Order.t :=
  Order.mk "555-9999" "12 Lake Road" 2 true "offline" "pending" None 100.

Definition sample_orders : gmap Z Order.t := {[ 5 := sample_order ]}.

Definition world_of (s : Session.t) : World :=
  {| session := s; users := sample_users; orders := sample_orders |}.

Definition anonymous : Session.t := Session.clear.
Definition customer_session (phone : string) : Session.t := Session.mk (Some phone) None [].
Definition staff_session (sid : Z) : Session.t := Session.mk None (Some sid) [].
Definition dual_session (phone : string) (sid : Z) : Session.t :=
  Session.mk (Some phone) (Some sid) [].

Definition post (fields : list (string * string)) : Request :=
  {| method := POST; form := list_to_map fields; utcnow := 200 |}.

Definition get : Request := {| method := GET; form := ∅; utcnow := 200 |}.

(** A stand-in for [int]: it reads a decimal numeral, with a minus sign
    for a negative one, and nothing else. *)
Definition sample_int (s : string) : option Z := Z.of_int <$> NilZero.int_of_string s.

(** The [cans] that are submitted, when [int] reads them, fit the column. *)
Definition submitted_cans_fit (int : string → option Z) (rq : Request) : Prop :=
  ∀ raw n, form rq !! "cans" = Some raw → int raw = Some n → sqlite_int n.

(** A stand-in for the password check: the hash of [p] is ["pbkdf2:" ++ p]. *)
Definition sample_check (hash password : string) : bool :=
  bool_decide (hash = "pbkdf2:" +:+ password).

(** The columns [enter_payment] does not write. *)
Definition same_but_payment (o o' : Order.t) : Prop :=
  Order.customer_phone o' = Order.customer_phone o ∧
  Order.customer_address o' = Order.customer_address o ∧
  Order.cans o' = Order.cans o ∧
  Order.cooling o' = Order.cooling o ∧
  Order.payment_method o' = Order.payment_method o ∧
  Order.created_at o' = Order.created_at o.

(** The session resolves to the staff account [u]. *)
Definition staff_is (w : World) (u : User.t) : Prop :=
  ∃ sid, currentStaffId w = Some sid ∧ users w !! sid = Some u.

(** The value ranges the data model gives the columns of an order. *)
Definition phone_ok (o : Order.t) : Prop := Order.customer_phone o ≠ "".
Definition address_ok (o : Order.t) : Prop := Order.customer_address o ≠ "".





(** What one request to [r] may do to the order table [t]. *)
Inductive table_change (int : string → option Z) (rq : Request) (t : gmap Z Order.t) :
    Route → gmap Z Order.t → Prop :=
| tc_none r :
    table_change int rq t r t
| tc_place o :
    phone_ok o → address_ok o →
    Order.payment_status o = "pending" →
    Order.payment_method o = form_get rq "payment_method" "offline" →
    table_change int rq t url_place_order (<[next_id t := o]> t)
| tc_pay oid o o' :
    t !! oid = Some o → same_but_payment o o' →
    Order.payment_status o' = "paid" →
    table_change int rq t (url_enter_payment oid) (<[oid := o']> t)
| tc_edit oid o :
    t !! oid = Some o →
    table_change int rq t (url_edit_order oid) (<[oid := apply_edit int rq o]> t)
| tc_delete oid :
    table_change int rq t (url_delete_order oid) (delete oid t).

(** ** Tactics *)


(** ** Start-up: the staff accounts *)

(** The four credentials read from the environment; [None] is a variable
    that is not set. *)
Record Config := {
  ADMIN_USERNAME : option string;
  ADMIN_PASSWORD : option string;
  MANAGER_USERNAME : option string;
  MANAGER_PASSWORD : option string
}.

Section InitDb.
(** [werkzeug.security.generate_password_hash], a black box that salts:
    the first argument is the salt it draws for the call. *)
Variable generate_password_hash : string → string → string.

(** [init_db_and_users()] on the user table; [db.create_all()] changes no
    row.  The second query sees the row the first block added (the session
    flushes before a query). *)
Definition init_db_and_users (cfg : Config) (salt_admin salt_mgr : string)
    (table : gmap Z User.t) : gmap Z User.t :=
  let table :=
    if opt_bool (ADMIN_USERNAME cfg) && opt_bool (ADMIN_PASSWORD cfg)
    then
      match user_by_username table (default "" (ADMIN_USERNAME cfg)) with
      | Some _ => table
      | None =>
          <[next_id table :=
              User.mk (default "" (ADMIN_USERNAME cfg))
                      (generate_password_hash salt_admin (default "" (ADMIN_PASSWORD cfg)))
                      "admin"]> table
      end
    else table in
  let table :=
    if opt_bool (MANAGER_USERNAME cfg) && opt_bool (MANAGER_PASSWORD cfg)
    then
      match user_by_username table (default "" (MANAGER_USERNAME cfg)) with
      | Some _ => table
      | None =>
          <[next_id table :=
              User.mk (default "" (MANAGER_USERNAME cfg))
                      (generate_password_hash salt_mgr (default "" (MANAGER_PASSWORD cfg)))
                      "manager"]> table
      end
    else table in
  table.
End InitDb.

(** ** Further vocabulary *)

(** The [unique=True] of the [username] column. *)
Definition unique_usernames (table : gmap Z User.t) : Prop :=
  ∀ i j u v, table !! i = Some u → table !! j = Some v →
             User.username u = User.username v → i = j.

(** Some row of the table has the username [name]. *)
Definition has_username (table : gmap Z User.t) (name : string) : Prop :=
  ∃ i u, table !! i = Some u ∧ User.username u = name.

(** The customer phone of the session, when there is one, is non-empty
    and has no whitespace around it. *)
Definition phone_trimmed (w : World) : Prop :=
  ∀ p, currentCustomerPhone w = Some p → p ≠ "" ∧ strip p = p.

(** The staff id of the session, when there is one, is the key of a user. *)
Definition staff_resolves (w : World) : Prop :=
  ∀ sid, currentStaffId w = Some sid → is_Some (users w !! sid).

(** A stand-in for the salted hash, matching [sample_check]. *)
Definition sample_hash (salt password : string) : string := "pbkdf2:" +:+ password.

Definition sample_config : Config :=
  {| ADMIN_USERNAME := Some "boss"; ADMIN_PASSWORD := Some "boss";
     MANAGER_USERNAME := Some "mgr1"; MANAGER_PASSWORD := Some "mgr1" |}.

(** The variables [u] and [p] are both set and non-empty: [name] and [pw]. *)
Definition credentials (u p : option string) (name pw : string) : Prop :=
  u = Some name ∧ name ≠ "" ∧ p = Some pw ∧ pw ≠ "".

(** One of the two blocks of [init_db_and_users]. *)
Definition account_block (hash : string → string) (u p : option string)
    (role : string) (table : gmap Z User.t) : gmap Z User.t :=
  if opt_bool u && opt_bool p
  then
    match user_by_username table (default "" u) with
    | Some _ => table
    | None => <[next_id table := User.mk (default "" u) (hash (default "" p)) role]> table
    end
  else table.

(** Unfolds the routes and decorators and splits on every test. *)
Ltac crunch_routes :=
  unfold dispatch, only, index, route_send_otp, logout, customer_dashboard,
    place_order, staff_login, staff_logout, staff_dashboard, enter_payment,
    edit_order, delete_order, view_order, require_customer, require_staff,
    current_staff, no_row;
  repeat case_match.

(** The requests of one session, handled one after the other. *)
Fixpoint run (int : string → option Z) (check_password_hash : string → string → bool)
    (trace : list (Route * Request)) (w : World) : World :=
  match trace with
  | [] => w
  | (r, rq) :: trace =>
      run int check_password_hash trace (snd (dispatch int check_password_hash r rq w))
  end.
(** * Properties *)

(** ** Trimming *)

Lemma lstrip_eq s :
  lstrip s = match ws_head s with Some r => lstrip r | None => s end.
Proof.
  destruct s as [|c1 [|c2 [|c3 s3]]]; simpl; [done|..].
  - by destruct (isspace c1).
  - destruct (isspace c1); [done|]. by destruct (isspace2 c1 c2).
  - destruct (isspace c1); [done|]. destruct (isspace2 c1 c2); [done|].
    by destruct (isspace3 c1 c2 c3).
Qed.

Lemma all_space_eq s :
  all_space s = match s with
                | EmptyString => true
                | String _ _ =>
                    match ws_head s with Some r => all_space r | None => false end
                end.
Proof.
  destruct s as [|c1 [|c2 [|c3 s3]]]; simpl; [done|..].
  - by destruct (isspace c1).
  - destruct (isspace c1); [done|]. by destruct (isspace2 c1 c2).
  - destruct (isspace c1); [done|]. destruct (isspace2 c1 c2); [done|].
    by destruct (isspace3 c1 c2 c3).
Qed.

(** A leading whitespace character is one, two or three bytes. *)
Lemma ws_head_app s r :
  ws_head s = Some r → ∃ c k, s = String c k +:+ r ∧ ∀ t, ws_head (String c k +:+ t) = Some t.
Proof.
  destruct s as [|c1 [|c2 [|c3 s3]]]; simpl; [done|..].
  - destruct (isspace c1) eqn:E1; [|done]. intros [= <-].
    exists c1, "". split; [done|]. intros t. simpl. by rewrite E1.
  - destruct (isspace c1) eqn:E1.
    + intros [= <-]. exists c1, "". split; [done|]. intros t. simpl. by rewrite E1.
    + destruct (isspace2 c1 c2) eqn:E2; [|done]. intros [= <-].
      exists c1, (String c2 ""). split; [done|]. intros [|c t]; simpl; by rewrite E1, E2.
  - destruct (isspace c1) eqn:E1.
    + intros [= <-]. exists c1, "". split; [done|]. intros t. simpl. by rewrite E1.
    + destruct (isspace2 c1 c2) eqn:E2.
      * intros [= <-]. exists c1, (String c2 ""). split; [done|].
        intros [|c t]; simpl; by rewrite E1, E2.
      * destruct (isspace3 c1 c2 c3) eqn:E3; [|done]. intros [= <-].
        exists c1, (String c2 (String c3 "")). split; [done|].
        intros t. simpl. by rewrite E1, E2, E3.
Qed.

Lemma length_app_string (a b : string) :
  String.length (a +:+ b) = (String.length a + String.length b)%nat.
Proof.
  induction a as [|x a IH]; [done|].
  change (String x a +:+ b) with (String x (a +:+ b)). simpl. by rewrite IH.
Qed.

Lemma ws_head_length s r : ws_head s = Some r → (String.length r < String.length s)%nat.
Proof.
  intros (c & k & -> & _)%ws_head_app. rewrite length_app_string. simpl. lia.
Qed.

(** Induction along the leading whitespace of a text. *)
Lemma ws_ind (P : string → Prop) :
  P "" →
  (∀ s r, ws_head s = Some r → P r → P s) →
  (∀ s, s ≠ "" → ws_head s = None → P s) →
  ∀ s, P s.
Proof.
  intros Hnil Hws Hno s.
  remember (String.length s) as n eqn:Hn. revert s Hn.
  induction n as [n IH] using lt_wf_ind. intros s ->.
  destruct s as [|c s']; [done|].
  destruct (ws_head (String c s')) as [r|] eqn:E.
  - apply (Hws _ r E). apply (IH (String.length r)); [by apply ws_head_length | done].
  - by apply Hno.
Qed.

Lemma rstrip_empty_iff s : rstrip s = "" ↔ all_space s = true.
Proof.
  destruct s as [|c s]; [done|]. cbn [rstrip].
  by destruct (all_space (String c s)).
Qed.

Lemma all_space_lstrip s : all_space (lstrip s) = all_space s.
Proof.
  induction s as [|s r E IH|s Hne E] using ws_ind; [done|..].
  - rewrite lstrip_eq, (all_space_eq s), E. destruct s; [done|]. exact IH.
  - by rewrite lstrip_eq, E.
Qed.

(** A string trims to the empty string exactly when it is empty or made
    of whitespace only. *)
Lemma strip_empty_iff s : strip s = "" ↔ all_space s = true.
Proof. unfold strip. by rewrite rstrip_empty_iff, all_space_lstrip. Qed.

Lemma str_bool_false s : str_bool s = false ↔ s = "".
Proof. by destruct s. Qed.

Lemma str_bool_true s : str_bool s = true ↔ s ≠ "".
Proof. by destruct s. Qed.

(** [strip] on sample texts: plain blanks, a no-break space (C2 A0) and
    an ideographic space (E3 80 80). *)
Example strip_samples :
  strip "  12 Lake Road	 " = "12 Lake Road" ∧
  strip (String "194" (String "160" "555-1234")) = "555-1234" ∧
  strip (String "194" (String "160" "")) = "" ∧
  strip (String "a" (String "227" (String "128" (String "128" " ")))) = "a" ∧
  strip "a b" = "a b".
Proof. repeat split; reflexivity. Qed.

Lemma lstrip_head s : lstrip s = "" ∨ ws_head (lstrip s) = None.
Proof.
  induction s as [|s r E IH|s Hne E] using ws_ind; [by left|..].
  - by rewrite lstrip_eq, E.
  - rewrite lstrip_eq, E. by right.
Qed.

Lemma rstrip_split s : ∃ r, s = rstrip s +:+ r ∧ all_space r = true.
Proof.
  induction s as [|c s (r & Hs & Hr)]; [by exists ""|]. cbn [rstrip].
  destruct (all_space (String c s)) eqn:E.
  - by exists (String c s).
  - exists r. split; [|done].
    change (String c s = String c (rstrip s +:+ r)). by rewrite <- Hs.
Qed.

Lemma app_assoc_string (a b c : string) : (a +:+ b) +:+ c = a +:+ (b +:+ c).
Proof.
  induction a as [|x a IH]; [done|].
  change ((String x a +:+ b) +:+ c) with (String x ((a +:+ b) +:+ c)).
  change (String x a +:+ (b +:+ c)) with (String x (a +:+ (b +:+ c))).
  by rewrite IH.
Qed.

Lemma all_space_app a b : all_space a = true → all_space (a +:+ b) = all_space b.
Proof.
  induction a as [|a r E IH|a Hne E] using ws_ind; [done|..].
  - rewrite (all_space_eq a), E. destruct a as [|c0 a0]; [done|]. intros Hr.
    destruct (ws_head_app _ _ E) as (c & k & Ha & Hk).
    rewrite Ha, app_assoc_string, (all_space_eq (String c k +:+ (r +:+ b))), Hk.
    cbn. by apply IH.
  - rewrite (all_space_eq a), E. by destruct a.
Qed.

Lemma ws_head_prefix a b : ws_head (a +:+ b) = None → ws_head a = None.
Proof.
  destruct (ws_head a) as [r|] eqn:E; [|done].
  destruct (ws_head_app _ _ E) as (c & k & -> & Hk).
  by rewrite app_assoc_string, Hk.
Qed.

Lemma rstrip_idem s : rstrip (rstrip s) = rstrip s.
Proof.
  induction s as [|c s IH]; [done|]. cbn [rstrip].
  destruct (all_space (String c s)) eqn:E; [done|]. cbn [rstrip]. rewrite IH.
  destruct (all_space (String c (rstrip s))) eqn:E'; [|done].
  destruct (rstrip_split s) as (r & Hs & Hr).
  assert (all_space (String c s) = true); [|congruence].
  rewrite Hs at 1. change (all_space (String c (rstrip s) +:+ r) = true).
  by rewrite all_space_app.
Qed.

Lemma lstrip_rstrip s : lstrip (rstrip (lstrip s)) = rstrip (lstrip s).
Proof.
  destruct (lstrip_head s) as [->|E]; [done|].
  rewrite lstrip_eq.
  destruct (rstrip_split (lstrip s)) as (r & Hs & Hr).
  rewrite Hs in E. by rewrite (ws_head_prefix _ _ E).
Qed.

(** Trimming twice is trimming once. *)
Lemma strip_idem s : strip (strip s) = strip s.
Proof. unfold strip. by rewrite lstrip_rstrip, rstrip_idem. Qed.

(** The stand-in for [int] reads decimal numerals. *)
Lemma sample_int_reads_decimal : int_reads_decimal sample_int.
Proof.
  intros n _. unfold sample_int, decimal.
  rewrite NilZero.isi.
  - simpl. by rewrite DecimalZ.of_to.
  - destruct n as [|p|p]; simpl; [done| |done].
    intros [= H]. by apply DecimalPos.Unsigned.to_uint_nonnil in H.
  - destruct n as [|p|p]; simpl; [done|done|].
    intros [= H]. by apply DecimalPos.Unsigned.to_uint_nonnil in H.
Qed.

Example sample_int_samples :
  sample_int "12" = Some 12 ∧ sample_int "-3" = Some (-3) ∧
  sample_int "abc" = None ∧ sample_int "" = None ∧
  decimal 12 = "12" ∧ decimal (-3) = "-3".
Proof. repeat split; reflexivity. Qed.

(** ** Lemmas on [flash] and the state *)

Lemma flash_orders m c w : orders (flash m c w) = orders w.
Proof. done. Qed.

Lemma flash_users m c w : users (flash m c w) = users w.
Proof. done. Qed.

Lemma flash_customer_phone m c w :
  Session.customer_phone (session (flash m c w)) = Session.customer_phone (session w).
Proof. done. Qed.

Lemma flash_staff_id m c w :
  Session.staff_id (session (flash m c w)) = Session.staff_id (session w).
Proof. done. Qed.


Lemma last_flash_flash m c w : last_flash (flash m c w) = Some (c, m).
Proof. unfold last_flash. simpl. apply last_snoc. Qed.

(** ** Session manager *)


Lemma send_otp_ok rq w :
  strip (form_get rq "phone" "") ≠ "" →
  fst (route_send_otp rq w) = redirect "customer_dashboard" ∧
  currentCustomerPhone (snd (route_send_otp rq w)) = Some (strip (form_get rq "phone" "")) ∧
  currentStaffId (snd (route_send_otp rq w)) = currentStaffId w ∧
  users (snd (route_send_otp rq w)) = users w ∧
  orders (snd (route_send_otp rq w)) = orders w.
Proof.
  intros H%str_bool_true. unfold route_send_otp. rewrite H. simpl. done.
Qed.

Lemma send_otp_invalid rq w :
  strip (form_get rq "phone" "") = "" →
  route_send_otp rq w = (redirect "index", flash "Enter phone number." "error" w).
Proof.
  intros H. unfold route_send_otp. rewrite H. done.
Qed.

(** C4, as the code has it: for every submitted phone that is non-empty
    after trimming, [route_send_otp] succeeds (redirect to the customer
    dashboard) and the customer phone of the session is then the TRIMMED
    phone; the staff slot and both tables are untouched.  For a phone that
    is empty (or blank, or not submitted) it answers with the validation
    message and a redirect to the landing page, and neither identity slot
    nor any table changes. *)
Theorem start_customer_session_trimmed :
  (∀ rq w p,
     form rq !! "phone" = Some p → strip p ≠ "" →
     fst (route_send_otp rq w) = redirect "customer_dashboard" ∧
     currentCustomerPhone (snd (route_send_otp rq w)) = Some (strip p) ∧
     currentStaffId (snd (route_send_otp rq w)) = currentStaffId w ∧
     users (snd (route_send_otp rq w)) = users w ∧
     orders (snd (route_send_otp rq w)) = orders w) ∧
  (∀ rq w,
     strip (form_get rq "phone" "") = "" →
     fst (route_send_otp rq w) = redirect "index" ∧
     last_flash (snd (route_send_otp rq w)) = Some ("error", "Enter phone number.") ∧
     currentCustomerPhone (snd (route_send_otp rq w)) = currentCustomerPhone w ∧
     currentStaffId (snd (route_send_otp rq w)) = currentStaffId w ∧
     users (snd (route_send_otp rq w)) = users w ∧
     orders (snd (route_send_otp rq w)) = orders w).
Proof.
  split.
  - intros rq w p Hp Hne.
    assert (form_get rq "phone" "" = p) as Hg by (unfold form_get; by rewrite Hp).
    pose proof (send_otp_ok rq w) as H. rewrite Hg in H. by apply H.
  - intros rq w H. rewrite (send_otp_invalid _ _ H). simpl.
    by rewrite last_flash_flash.
Qed.

Lemma start_customer_session_trimmed_witness :
  currentCustomerPhone
    (snd (route_send_otp (post [("phone", " 555-1234 ")]) (world_of anonymous)))
    = Some "555-1234" ∧
  fst (route_send_otp (post [("phone", "  ")]) (world_of (staff_session 2)))
    = redirect "index" ∧
  currentStaffId (snd (route_send_otp (post [("phone", "  ")]) (world_of (staff_session 2))))
    = Some 2.
Proof.
  destruct start_customer_session_trimmed as [Hok Hbad]. split.
  - destruct (Hok (post [("phone", " 555-1234 ")]) (world_of anonymous) " 555-1234 ")
      as (_ & H & _); [reflexivity | vm_compute; congruence | exact H].
  - destruct (Hbad (post [("phone", "  ")]) (world_of (staff_session 2)))
      as (H1 & _ & _ & H2 & _); [reflexivity | exact (conj H1 H2)].
Defined.

(** C4 as stated fails: a phone with surrounding whitespace is non-empty
    after trimming, the call succeeds, and the session then holds the
    trimmed phone, not the submitted one. *)
Lemma padded_phone_is_not_kept :
  form (post [("phone", " 555-1234")]) !! "phone" = Some " 555-1234" ∧
  strip " 555-1234" ≠ "" ∧
  fst (route_send_otp (post [("phone", " 555-1234")]) (world_of anonymous))
    = redirect "customer_dashboard" ∧
  currentCustomerPhone
    (snd (route_send_otp (post [("phone", " 555-1234")]) (world_of anonymous)))
    ≠ Some " 555-1234".
Proof. vm_compute. repeat split; congruence. Qed.

(** C10: [staff_logout] pops only the staff slot of the session: the
    customer phone is what it was, so the customer guard still lets a
    customer through while the staff guard now sends to the staff login;
    [logout] clears the session, after which both guards deny.  Neither
    touches a table. *)
Theorem staff_logout_keeps_customer :
  (∀ rq w,
     fst (staff_logout rq w) = redirect "index" ∧
     currentStaffId (snd (staff_logout rq w)) = None ∧
     currentCustomerPhone (snd (staff_logout rq w)) = currentCustomerPhone w ∧
     users (snd (staff_logout rq w)) = users w ∧
     orders (snd (staff_logout rq w)) = orders w) ∧
  (∀ rq w p sid f role rq',
     currentCustomerPhone w = Some p → currentStaffId w = Some sid →
     currentCustomerPhone (snd (staff_logout rq w)) = Some p ∧
     require_customer f rq' (snd (staff_logout rq w)) = f rq' (snd (staff_logout rq w)) ∧
     require_staff role f rq' (snd (staff_logout rq w))
       = (redirect "staff_login", snd (staff_logout rq w))) ∧
  (∀ rq w f role rq',
     fst (logout rq w) = redirect "index" ∧
     currentStaffId (snd (logout rq w)) = None ∧
     currentCustomerPhone (snd (logout rq w)) = None ∧
     users (snd (logout rq w)) = users w ∧
     orders (snd (logout rq w)) = orders w ∧
     require_customer f rq' (snd (logout rq w)) = (redirect "index", snd (logout rq w)) ∧
     require_staff role f rq' (snd (logout rq w))
       = (redirect "staff_login", snd (logout rq w))).
Proof.
  split; [|split].
  - done.
  - intros rq w p sid f role rq' Hp Hs. unfold currentCustomerPhone in *.
    unfold require_customer, require_staff. simpl. rewrite Hp. done.
  - done.
Qed.

Lemma staff_logout_keeps_customer_witness :
  currentCustomerPhone (snd (staff_logout get (world_of (dual_session "555-1234" 2))))
    = Some "555-1234" ∧
  fst (customer_dashboard get (snd (staff_logout get (world_of (dual_session "555-1234" 2)))))
    = render_template (customer_dashboard_html "555-1234" []) ∧
  fst (staff_dashboard get (snd (staff_logout get (world_of (dual_session "555-1234" 2)))))
    = redirect "staff_login".
Proof.
  destruct staff_logout_keeps_customer as (_ & H & _).
  destruct (H get (world_of (dual_session "555-1234" 2)) "555-1234" 2
              (λ _ w, (abort 500, w)) None get eq_refl eq_refl) as (H1 & _ & _).
  split; [exact H1|]. vm_compute. done.
Defined.

(** ** Single-order view *)

Lemma view_order_cases oid rq w o :
  orders w !! oid = Some o →
  view_order oid rq w =
    (match currentCustomerPhone w with
     | Some p => if bool_decide (p ≠ Order.customer_phone o)
                 then body_status "Forbidden" 403
                 else render_template (view_order_html oid o)
     | None => render_template (view_order_html oid o)
     end, w).
Proof.
  intros Ho. unfold view_order, currentCustomerPhone. rewrite Ho.
  destruct (Session.customer_phone (session w)); [case_bool_decide|]; done.
Qed.

(** C3, as the code has it: on an existing order [view_order] answers
    403 Forbidden exactly when the session holds a customer phone that
    differs from the order's; in every other case it renders the order.
    A session without a customer phone is never denied, with or without a
    staff id; the staff slot is not consulted at all, so it exempts
    nobody.  The state is left as it was. *)
Theorem view_order_forbidden_iff oid rq w o :
  orders w !! oid = Some o →
  (fst (view_order oid rq w) = body_status "Forbidden" 403 ↔
     ∃ p, currentCustomerPhone w = Some p ∧ p ≠ Order.customer_phone o) ∧
  (fst (view_order oid rq w) ≠ body_status "Forbidden" 403 →
     fst (view_order oid rq w) = render_template (view_order_html oid o)) ∧
  (currentCustomerPhone w = None →
     fst (view_order oid rq w) = render_template (view_order_html oid o)) ∧
  (∀ s', Session.customer_phone s' = currentCustomerPhone w →
     fst (view_order oid rq {| session := s'; users := users w; orders := orders w |})
       = fst (view_order oid rq w)) ∧
  snd (view_order oid rq w) = w.
Proof.
  intros Ho. rewrite (view_order_cases _ _ _ _ Ho). simpl.
  repeat split.
  - destruct (currentCustomerPhone w) as [p|]; [|done].
    case_bool_decide; [eauto|done].
  - intros (p & -> & Hne). by rewrite bool_decide_true.
  - destruct (currentCustomerPhone w) as [p|]; [case_bool_decide|]; done.
  - by intros ->.
  - intros s' Hs'. rewrite (view_order_cases _ _ _ o); [|done].
    unfold currentCustomerPhone in *. simpl. by rewrite Hs'.
Qed.

Lemma view_order_forbidden_iff_witness :
  fst (view_order 5 get (world_of (customer_session "555-1234")))
    = body_status "Forbidden" 403 ∧
  fst (view_order 5 get (world_of (staff_session 2)))
    = render_template (view_order_html 5 sample_order).
Proof.
  split.
  - destruct (view_order_forbidden_iff 5 get (world_of (customer_session "555-1234"))
                sample_order eq_refl) as ([_ H] & _).
    apply H. exists "555-1234". split; [reflexivity | discriminate].
  - destruct (view_order_forbidden_iff 5 get (world_of (staff_session 2))
                sample_order eq_refl) as (_ & _ & H & _).
    apply H. reflexivity.
Defined.

(** C3 as stated fails in its second half: the session below is reached
    by continuing as a customer and then logging in as staff; it holds a
    staff id that resolves to an account, and the view of an order of
    another phone is still denied. *)
Lemma staff_identity_is_still_denied :
  let w := snd (staff_login sample_check
                  (post [("username", "mgr1"); ("password", "mgr1")])
                  (snd (route_send_otp (post [("phone", "555-1234")])
                          (world_of anonymous)))) in
  currentStaffId w = Some 2 ∧
  users w !! 2 = Some (User.mk "mgr1" "pbkdf2:mgr1" "manager") ∧
  orders w !! 5 = Some sample_order ∧
  fst (view_order 5 get w) = body_status "Forbidden" 403.
Proof. vm_compute. done. Qed.

(** ** The staff guard *)

Lemma require_staff_anonymous role f rq w :
  currentStaffId w = None →
  require_staff role f rq w = (redirect "staff_login", w).
Proof. unfold currentStaffId, require_staff. by intros ->. Qed.

Lemma require_staff_stale role f rq w sid :
  currentStaffId w = Some sid → users w !! sid = None →
  require_staff role f rq w = (redirect "staff_login", pop_staff_id w).
Proof. unfold currentStaffId, require_staff. by intros -> ->. Qed.

Lemma require_staff_any f rq w u :
  staff_is w u → require_staff None f rq w = f rq w.
Proof. intros (sid & Hs & Hu). unfold currentStaffId, require_staff in *. by rewrite Hs, Hu. Qed.

Lemma require_staff_role_ok r f rq w u :
  staff_is w u → User.role u = r → require_staff (Some r) f rq w = f rq w.
Proof.
  intros (sid & Hs & Hu) Hr. unfold currentStaffId, require_staff in *.
  rewrite Hs, Hu. rewrite (bool_decide_false (Some (User.role u) ≠ Some r)).
  - by rewrite andb_false_r.
  - intros H. apply H. by rewrite Hr.
Qed.

Lemma require_staff_role_denied r f rq w u :
  staff_is w u → r ≠ "" → User.role u ≠ r →
  require_staff (Some r) f rq w
    = (redirect "staff_dashboard", flash "Permission denied." "error" w).
Proof.
  intros (sid & Hs & Hu) Hr Hne. unfold currentStaffId, require_staff in *.
  rewrite Hs, Hu. rewrite (bool_decide_true (Some (User.role u) ≠ Some r)).
  - simpl. by apply str_bool_true in Hr as ->.
  - congruence.
Qed.

Lemma current_staff_is w u : staff_is w u → current_staff w = Some (Some u).
Proof.
  intros (sid & Hs & Hu). unfold current_staff, currentStaffId in *. by rewrite Hs, Hu.
Qed.

(** What the guard answers when it does not run the view: the view's
    tables are the ones before. *)
Lemma require_staff_tables role f rq w :
  require_staff role f rq w = f rq w ∨
  (users (snd (require_staff role f rq w)) = users w ∧
   orders (snd (require_staff role f rq w)) = orders w ∧
   ∃ endpoint, fst (require_staff role f rq w) = redirect endpoint).
Proof.
  unfold require_staff.
  destruct (Session.staff_id (session w)) as [sid|]; [|right; eauto].
  destruct (users w !! sid) as [u|]; [|right; eauto].
  destruct (opt_bool role && _); [right; eauto | by left].
Qed.

(** C9: when the session's staff id matches no row of the user table,
    the guard pops the staff id, leaves everything else as it was, and
    answers with a redirect to the staff login, whatever the guarded view
    and the required role are: the view is not run.  This holds for each of
    the four guarded routes. *)
Theorem stale_staff_id_is_cleared int w sid :
  currentStaffId w = Some sid → users w !! sid = None →
  (∀ role f rq,
     require_staff role f rq w = (redirect "staff_login", pop_staff_id w)) ∧
  (∀ rq oid,
     staff_dashboard rq w = (redirect "staff_login", pop_staff_id w) ∧
     enter_payment oid rq w = (redirect "staff_login", pop_staff_id w) ∧
     edit_order int oid rq w = (redirect "staff_login", pop_staff_id w) ∧
     delete_order oid rq w = (redirect "staff_login", pop_staff_id w)) ∧
  currentStaffId (pop_staff_id w) = None ∧
  currentCustomerPhone (pop_staff_id w) = currentCustomerPhone w ∧
  Session.flashes (session (pop_staff_id w)) = Session.flashes (session w) ∧
  users (pop_staff_id w) = users w ∧
  orders (pop_staff_id w) = orders w.
Proof.
  intros Hs Hu. split; [|split; [|done]].
  - intros. by eapply require_staff_stale.
  - intros rq oid. unfold staff_dashboard, enter_payment, edit_order, delete_order.
    by rewrite !(require_staff_stale _ _ _ _ _ Hs Hu).
Qed.

Lemma stale_staff_id_is_cleared_witness :
  delete_order 5 (post []) (world_of (staff_session 9))
    = (redirect "staff_login", world_of anonymous) ∧
  edit_order sample_int 5 (post [("cans", "7")]) (world_of (dual_session "555-1234" 9))
    = (redirect "staff_login", world_of (customer_session "555-1234")).
Proof.
  split.
  - destruct (stale_staff_id_is_cleared sample_int (world_of (staff_session 9)) 9 eq_refl eq_refl)
      as (_ & H & _).
    destruct (H (post []) 5) as (_ & _ & _ & Hd). exact Hd.
  - destruct (stale_staff_id_is_cleared sample_int (world_of (dual_session "555-1234" 9)) 9
                eq_refl eq_refl) as (_ & H & _).
    destruct (H (post [("cans", "7")]) 5) as (_ & _ & He & _). exact He.
Defined.

Lemma require_staff_admin_inv f rq w :
  (require_staff (Some "admin") f rq w = f rq w ∧
   ∃ u, staff_is w u ∧ User.role u = "admin") ∨
  (orders (snd (require_staff (Some "admin") f rq w)) = orders w ∧
   ∃ endpoint, fst (require_staff (Some "admin") f rq w) = redirect endpoint).
Proof.
  unfold require_staff.
  destruct (Session.staff_id (session w)) as [sid|] eqn:Hs; [|right; eauto].
  destruct (users w !! sid) as [u|] eqn:Hu; [|right; eauto].
  case_bool_decide as Hr; simpl; [right; eauto|].
  left. split; [done|]. exists u. split; [by exists sid|].
  congruence.
Qed.

(** ** Staff views of the orders *)

Lemma order_by_created_at_desc_elem rows r :
  r ∈ order_by_created_at_desc rows ↔ r ∈ rows.
Proof. unfold order_by_created_at_desc. by rewrite merge_sort_Permutation. Qed.

Lemma staff_dashboard_lists_all rq w u :
  staff_is w u →
  ∃ rows,
    staff_dashboard rq w = (render_template (staff_dashboard_html (Some u) rows), w) ∧
    ∀ i o, (i, o) ∈ rows ↔ orders w !! i = Some o.
Proof.
  intros Hu. unfold staff_dashboard.
  rewrite (require_staff_any _ _ _ _ Hu), (current_staff_is _ _ Hu).
  eexists; split; [done|]. intros i o.
  by rewrite order_by_created_at_desc_elem, elem_of_map_to_list.
Qed.

Lemma enter_payment_ok oid rq w u o :
  staff_is w u → orders w !! oid = Some o →
  strip (form_get rq "payment_details" "") ≠ "" →
  enter_payment oid rq w =
    (redirect "staff_dashboard",
     flash "Payment recorded." "success"
       (with_orders
          (λ t, <[oid := Order.mk (Order.customer_phone o) (Order.customer_address o)
                           (Order.cans o) (Order.cooling o) (Order.payment_method o)
                           "paid"
                           (Some (User.username u +:+ ": " +:+
                                  strip (form_get rq "payment_details" "")))
                           (Order.created_at o)]> t) w)).
Proof.
  intros Hu Ho Hd%str_bool_true. unfold enter_payment.
  rewrite (require_staff_any _ _ _ _ Hu), (current_staff_is _ _ Hu), Ho, Hd. done.
Qed.

Lemma enter_payment_blank oid rq w u o :
  staff_is w u → orders w !! oid = Some o →
  strip (form_get rq "payment_details" "") = "" →
  enter_payment oid rq w =
    (redirect "staff_dashboard", flash "Enter payment details." "error" w).
Proof.
  intros Hu Ho Hd. unfold enter_payment.
  rewrite (require_staff_any _ _ _ _ Hu), (current_staff_is _ _ Hu), Ho, Hd. done.
Qed.

Lemma enter_payment_unknown oid rq w u :
  staff_is w u → orders w !! oid = None → enter_payment oid rq w = (no_row oid, w).
Proof.
  intros Hu Ho. unfold enter_payment.
  rewrite (require_staff_any _ _ _ _ Hu), (current_staff_is _ _ Hu), Ho. done.
Qed.

Lemma no_row_404 oid : sqlite_int oid → no_row oid = abort 404.
Proof. intros H. unfold no_row. by rewrite bool_decide_true. Qed.


(** The test [edit_order] makes on the assigned [cans] passes when the
    submitted [cans] fit. *)
Lemma assigned_cans_fit int rq :
  submitted_cans_fit int rq →
  match assigned_cans int rq with
  | Some n => bool_decide (sqlite_int n)
  | None => true
  end = true.
Proof.
  intros Hfit. unfold assigned_cans.
  destruct (form rq !! "cans") as [raw|] eqn:Hraw; [|done].
  destruct (int raw) as [n|] eqn:Hn; [|done].
  apply bool_decide_eq_true. by eapply Hfit.
Qed.

(** C5: a staff account whose role is not admin (a manager) is refused
    by [edit_order] and [delete_order] with the flash "Permission denied."
    and a redirect to the staff dashboard, not to the login, and nothing
    else changes; whenever one of the two changes the order table or shows
    the edit form, the session resolves to an account whose role is admin,
    and for such an account and an existing order the delete goes through,
    and so does the edit when the submitted [cans], if they parse, fit the
    integer column; the same manager session records a payment and is shown the staff
    order list, which holds exactly the rows of the order table. *)
Theorem only_admin_edits_and_deletes int :
  (∀ oid rq w u,
     staff_is w u → User.role u ≠ "admin" →
     edit_order int oid rq w
       = (redirect "staff_dashboard", flash "Permission denied." "error" w) ∧
     delete_order oid rq w
       = (redirect "staff_dashboard", flash "Permission denied." "error" w)) ∧
  (∀ oid rq w,
     (orders (snd (edit_order int oid rq w)) ≠ orders w ∨
      (∃ page, fst (edit_order int oid rq w) = render_template page) →
      ∃ u, staff_is w u ∧ User.role u = "admin") ∧
     (orders (snd (delete_order oid rq w)) ≠ orders w →
      ∃ u, staff_is w u ∧ User.role u = "admin")) ∧
  (∀ oid rq w u o,
     staff_is w u → User.role u = "admin" → orders w !! oid = Some o →
     fst (delete_order oid rq w) = redirect "staff_dashboard" ∧
     orders (snd (delete_order oid rq w)) = delete oid (orders w) ∧
     (method rq = POST → submitted_cans_fit int rq →
      fst (edit_order int oid rq w) = redirect "staff_dashboard" ∧
      orders (snd (edit_order int oid rq w)) = <[oid := apply_edit int rq o]> (orders w)) ∧
     (method rq = GET →
      edit_order int oid rq w = (render_template (edit_order_html oid o), w))) ∧
  (∀ oid rq w u o,
     staff_is w u → User.role u = "manager" →
     orders w !! oid = Some o →
     strip (form_get rq "payment_details" "") ≠ "" →
     fst (enter_payment oid rq w) = redirect "staff_dashboard" ∧
     last_flash (snd (enter_payment oid rq w)) = Some ("success", "Payment recorded.") ∧
     (∃ o', orders (snd (enter_payment oid rq w)) !! oid = Some o' ∧
            Order.payment_status o' = "paid") ∧
     ∃ rows,
       staff_dashboard rq w = (render_template (staff_dashboard_html (Some u) rows), w) ∧
       ∀ i o, (i, o) ∈ rows ↔ orders w !! i = Some o).
Proof.
  split; [|split; [|split]].
  - intros oid rq w u Hu Hr. unfold edit_order, delete_order.
    by rewrite !(require_staff_role_denied "admin" _ _ _ _ Hu).
  - intros oid rq w. split.
    + unfold edit_order.
      match goal with |- context [require_staff _ ?f _ _] =>
        destruct (require_staff_admin_inv f rq w) as [[_ H]|[Ho [e He]]]; [done|]
      end.
      intros [Hne|[page Hp]]; [done|]. rewrite He in Hp. done.
    + unfold delete_order.
      match goal with |- context [require_staff _ ?f _ _] =>
        destruct (require_staff_admin_inv f rq w) as [[_ H]|[Ho _]]; done
      end.
  - intros oid rq w u o Hu Hr Ho. unfold edit_order, delete_order.
    rewrite !(require_staff_role_ok "admin" _ _ _ _ Hu Hr), Ho. simpl.
    split_and!; [done | done | | by intros ->].
    intros -> Hfit. by rewrite (assigned_cans_fit int _ Hfit).
  - intros oid rq w u o Hu Hr Ho Hd.
    rewrite (enter_payment_ok _ _ _ _ _ Hu Ho Hd). simpl.
    rewrite last_flash_flash. split; [done|]. split; [done|]. split.
    + eexists. rewrite lookup_insert_eq. done.
    + by apply staff_dashboard_lists_all.
Qed.

Lemma only_admin_edits_and_deletes_witness :
  edit_order sample_int 5 (post [("cans", "7")]) (world_of (staff_session 2))
    = (redirect "staff_dashboard",
       flash "Permission denied." "error" (world_of (staff_session 2))) ∧
  fst (enter_payment 5 (post [("payment_details", "cash received")])
         (world_of (staff_session 2)))
    = redirect "staff_dashboard" ∧
  (∃ u, staff_is (world_of (staff_session 1)) u ∧ User.role u = "admin").
Proof.
  destruct (only_admin_edits_and_deletes sample_int) as (Hdeny & Honly & _ & Hmgr).
  assert (staff_is (world_of (staff_session 2)) (User.mk "mgr1" "pbkdf2:mgr1" "manager"))
    as Hu by (exists 2; split; reflexivity).
  split; [|split].
  - destruct (Hdeny 5 (post [("cans", "7")]) _ _ Hu) as [H _]; [discriminate | exact H].
  - destruct (Hmgr 5 (post [("payment_details", "cash received")]) _ _ sample_order Hu)
      as [H _]; [reflexivity | reflexivity | vm_compute; congruence | exact H].
  - destruct (Honly 5 (post [("cans", "7")]) (world_of (staff_session 1))) as [H _].
    apply H. left. intros E. apply (f_equal (λ t, Order.cans <$> t !! 5)) in E.
    vm_compute in E. discriminate E.
Defined.

(** ** Recording a payment *)



(** C7: payment details that are missing, empty or made of whitespace
    only never change a table, whatever the session is; for a resolved
    staff account and an existing order the answer is the validation
    message "Enter payment details." with a redirect to the staff
    dashboard, and the order is the row it was. *)
Theorem blank_payment_details_rejected oid rq w o :
  orders w !! oid = Some o →
  all_space (form_get rq "payment_details" "") = true →
  orders (snd (enter_payment oid rq w)) = orders w ∧
  users (snd (enter_payment oid rq w)) = users w ∧
  orders (snd (enter_payment oid rq w)) !! oid = Some o ∧
  (∀ u, staff_is w u →
     enter_payment oid rq w
       = (redirect "staff_dashboard", flash "Enter payment details." "error" w) ∧
     last_flash (snd (enter_payment oid rq w)) = Some ("error", "Enter payment details.")).
Proof.
  intros Ho Hd%strip_empty_iff.
  assert (orders (snd (enter_payment oid rq w)) = orders w ∧
          users (snd (enter_payment oid rq w)) = users w) as [HO HU].
  { unfold enter_payment.
    match goal with |- context [require_staff _ ?f _ _] =>
      destruct (require_staff_tables None f rq w) as [->|(? & ? & _)]; [|done]
    end.
    rewrite Ho, Hd. by destruct (current_staff w). }
  split; [done|]. split; [done|]. split; [by rewrite HO|].
  intros u Hu. rewrite (enter_payment_blank _ _ _ _ _ Hu Ho Hd).
  split; [done|]. apply last_flash_flash.
Qed.

Lemma blank_payment_details_rejected_witness :
  orders (snd (enter_payment 5 (post [("payment_details", "   ")])
                 (world_of (staff_session 2)))) !! 5 = Some sample_order ∧
  fst (enter_payment 5 (post [("payment_details", "   ")]) (world_of (staff_session 2)))
    = redirect "staff_dashboard".
Proof.
  destruct (blank_payment_details_rejected 5 (post [("payment_details", "   ")])
              (world_of (staff_session 2)) sample_order eq_refl eq_refl)
    as (_ & _ & H & Hv).
  split; [exact H|].
  destruct (Hv (User.mk "mgr1" "pbkdf2:mgr1" "manager")) as [-> _];
    [exists 2; split; reflexivity | reflexivity].
Defined.

(** ** Placing an order *)

Lemma next_id_above {A} (table : gmap Z A) i :
  is_Some (table !! i) → i < next_id table.
Proof.
  unfold next_id.
  cut (∀ j, is_Some (table !! j) → j ≤ map_fold (λ k _ acc, Z.max k acc) 0 table).
  { intros H Hi. specialize (H i Hi). lia. }
  apply (map_fold_weak_ind (λ r (m : gmap Z A), ∀ j, is_Some (m !! j) → j ≤ r)).
  - intros j [x Hx]. by rewrite lookup_empty in Hx.
  - intros k x m r Hk IH j Hj. destruct (decide (k = j)) as [->|Hne]; [lia|].
    rewrite lookup_insert_ne in Hj by done. specialize (IH j Hj). lia.
Qed.

(** The key of a new row is not the key of a row of the table. *)
Lemma next_id_fresh {A} (table : gmap Z A) : table !! next_id table = None.
Proof.
  destruct (table !! next_id table) eqn:H; [|done].
  assert (next_id table < next_id table) by (apply next_id_above; eauto). lia.
Qed.

Lemma form_get_yes rq k : form_get rq k "no" = "yes" ↔ form rq !! k = Some "yes".
Proof.
  unfold form_get. destruct (form rq !! k) as [v|]; split; intros H; congruence.
Qed.

(** The quantity [place_order] stores fits the column when the submitted
    [cans] do. *)
Lemma placed_cans_fit int rq :
  submitted_cans_fit int rq →
  sqlite_int (match form rq !! "cans" with
              | Some raw => default 1 (int raw)
              | None => 1
              end).
Proof.
  intros Hfit. destruct (form rq !! "cans") as [raw|] eqn:Hraw.
  - destruct (int raw) as [n|] eqn:Hn; simpl; [by eapply Hfit|]. unfold sqlite_int. lia.
  - unfold sqlite_int. lia.
Qed.

Lemma place_order_accepts int rq w p :
  currentCustomerPhone w = Some p →
  strip (form_get rq "address" "") ≠ "" →
  strip (form_get rq "phone" "") ≠ "" ∨ p ≠ "" →
  submitted_cans_fit int rq →
  place_order int rq w =
    (redirect "customer_dashboard",
     flash "Order placed." "success"
       (with_orders
          (λ t, <[next_id t :=
                    Order.mk (if str_bool (strip (form_get rq "phone" ""))
                              then strip (form_get rq "phone" "") else p)
                             (strip (form_get rq "address" ""))
                             (match form rq !! "cans" with
                              | Some raw => default 1 (int raw)
                              | None => 1
                              end)
                             (bool_decide (form_get rq "cooling" "no" = "yes"))
                             (form_get rq "payment_method" "offline")
                             "pending" None (utcnow rq)]> t) w)).
Proof.
  intros Hp Ha Hph Hfit. unfold place_order, require_customer.
  unfold currentCustomerPhone in Hp. rewrite Hp.
  apply str_bool_true in Ha. rewrite Ha. simpl.
  assert (opt_bool (if str_bool (strip (form_get rq "phone" ""))
                    then Some (strip (form_get rq "phone" "")) else Some p) = true) as ->.
  { destruct (str_bool (strip (form_get rq "phone" ""))) eqn:E; simpl; [done|].
    apply str_bool_true. apply str_bool_false in E. by destruct Hph. }
  simpl. rewrite (bool_decide_true _ (placed_cans_fit int _ Hfit)).
  by destruct (str_bool (strip (form_get rq "phone" ""))).
Qed.

(** C8: under the customer guard, with an address that is non-empty after
    trimming and a phone in the form or in the session, [place_order]
    creates one row whenever the submitted [cans], if [int] reads them, fit
    the integer column, so in particular whenever [int] fails on them or
    nothing was submitted.  The row's [cans] is the integer [int] reads,
    which for the decimal numeral of an integer is that integer, and 1 when
    [int] fails or nothing was submitted; its [cooling] is true exactly when
    the submitted value is ["yes"]; its [payment_status] is pending and its
    [payment_details] is absent.  The row gets a fresh key and stamps the
    clock; the rows already there are kept. *)
Theorem place_order_parses_leniently int rq w p :
  currentCustomerPhone w = Some p →
  strip (form_get rq "address" "") ≠ "" →
  strip (form_get rq "phone" "") ≠ "" ∨ p ≠ "" →
  submitted_cans_fit int rq →
  ∃ o,
    fst (place_order int rq w) = redirect "customer_dashboard" ∧
    last_flash (snd (place_order int rq w)) = Some ("success", "Order placed.") ∧
    orders (snd (place_order int rq w)) = <[next_id (orders w) := o]> (orders w) ∧
    orders w !! next_id (orders w) = None ∧
    (∀ raw n, form rq !! "cans" = Some raw → int raw = Some n → Order.cans o = n) ∧
    (int_reads_decimal int →
     ∀ n, sqlite_int n → form rq !! "cans" = Some (decimal n) → Order.cans o = n) ∧
    (∀ raw, form rq !! "cans" = Some raw → int raw = None → Order.cans o = 1) ∧
    (form rq !! "cans" = None → Order.cans o = 1) ∧
    (Order.cooling o = true ↔ form rq !! "cooling" = Some "yes") ∧
    Order.payment_status o = "pending" ∧
    Order.payment_details o = None ∧
    Order.customer_address o = strip (form_get rq "address" "") ∧
    Order.created_at o = utcnow rq.
Proof.
  intros Hp Ha Hph Hfit. rewrite (place_order_accepts int _ _ _ Hp Ha Hph Hfit).
  eexists. split; [done|]. split; [apply last_flash_flash|].
  split; [done|]. split; [apply next_id_fresh|]. simpl.
  split_and!; try done.
  - by intros raw n -> ->.
  - intros Hint n Hn ->. by rewrite (Hint n Hn).
  - by intros raw -> ->.
  - by intros ->.
  - rewrite bool_decide_eq_true. apply form_get_yes.
Qed.

Lemma place_order_parses_leniently_witness :
  (∃ o,
     orders (snd (place_order sample_int
                    (post [("address", " 3 Mill Lane "); ("cans", "abc"); ("cooling", "no")])
                    (world_of (customer_session "555-1234")))) !! 6 = Some o ∧
     Order.cans o = 1 ∧ Order.cooling o = false ∧
     Order.payment_status o = "pending" ∧ Order.payment_details o = None) ∧
  (∃ o,
     orders (snd (place_order sample_int
                    (post [("address", "3 Mill Lane"); ("cans", "12"); ("cooling", "yes")])
                    (world_of (customer_session "555-1234")))) !! 6 = Some o ∧
     Order.cans o = 12 ∧ Order.cooling o = true).
Proof.
  split.
  - destruct (place_order_parses_leniently sample_int
                (post [("address", " 3 Mill Lane "); ("cans", "abc"); ("cooling", "no")])
                (world_of (customer_session "555-1234")) "555-1234" eq_refl)
      as (o & _ & _ & Ho & _ & _ & _ & Hc & _ & Hcool & Hs & Hd & _).
    + vm_compute; congruence.
    + right. discriminate.
    + intros raw n Hraw Hn. vm_compute in Hraw. injection Hraw as <-. discriminate Hn.
    + exists o. split; [rewrite Ho; apply lookup_insert_eq|].
      split; [apply (Hc "abc"); reflexivity|].
      split; [|split; [exact Hs | exact Hd]].
      destruct (Order.cooling o); [|reflexivity].
      destruct Hcool as [H _]. discriminate (H eq_refl).
  - destruct (place_order_parses_leniently sample_int
                (post [("address", "3 Mill Lane"); ("cans", "12"); ("cooling", "yes")])
                (world_of (customer_session "555-1234")) "555-1234" eq_refl)
      as (o & _ & _ & Ho & _ & _ & Hdec & _ & _ & Hcool & _).
    + vm_compute; congruence.
    + right. discriminate.
    + intros raw n Hraw Hn. vm_compute in Hraw. injection Hraw as <-.
      vm_compute in Hn. injection Hn as <-. unfold sqlite_int. lia.
    + exists o. split; [rewrite Ho; apply lookup_insert_eq|].
      split; [|by apply Hcool].
      apply (Hdec sample_int_reads_decimal 12); [unfold sqlite_int; lia | reflexivity].
Defined.

(** A quantity that does not fit the integer column: the commit raises,
    the answer is a 500 and no row is added. *)
Example place_order_overflow_sample :
  place_order sample_int
    (post [("address", "3 Mill Lane"); ("cans", "9223372036854775808")])
    (world_of (customer_session "555-1234"))
  = (abort 500, world_of (customer_session "555-1234")).
Proof. vm_compute. reflexivity. Qed.

(** ** Editing an order *)




(** A quantity that does not fit the integer column: the commit raises,
    the answer is a 500 and the row is not written. *)
Example edit_order_overflow_sample :
  edit_order sample_int 5 (post [("cans", "9223372036854775808")])
    (world_of (staff_session 1))
  = (abort 500, world_of (staff_session 1)).
Proof. vm_compute. reflexivity. Qed.


(** ** The order table under every request *)

Lemma place_order_table_change int rq w :
  table_change int rq (orders w) url_place_order (orders (snd (place_order int rq w))).
Proof.
  unfold place_order, require_customer.
  destruct (Session.customer_phone (session w)) as [p|]; [|apply tc_none].
  destruct (negb (str_bool (strip (form_get rq "address" ""))) || _) eqn:E;
    [apply tc_none|].
  apply orb_false_iff in E as [Ha%negb_false_iff Hp%negb_false_iff].
  destruct (bool_decide (sqlite_int _)); [|apply tc_none].
  simpl. apply tc_place; unfold phone_ok, address_ok; simpl; [| by apply str_bool_true | done..].
  destruct (str_bool (strip (form_get rq "phone" ""))) eqn:E; simpl in *;
    by apply str_bool_true.
Qed.

Lemma enter_payment_table_change int oid rq w :
  table_change int rq (orders w) (url_enter_payment oid) (orders (snd (enter_payment oid rq w))).
Proof.
  unfold enter_payment.
  match goal with |- context [require_staff _ ?f _ _] =>
    destruct (require_staff_tables None f rq w) as [->|(_ & -> & _)]; [|apply tc_none]
  end.
  destruct (current_staff w) as [u|]; [|apply tc_none].
  destruct (orders w !! oid) as [o|] eqn:Ho; [|apply tc_none].
  destruct (negb _); [apply tc_none|].
  destruct u as [u|]; [|apply tc_none].
  simpl. by eapply tc_pay.
Qed.

Lemma edit_order_table_change int oid rq w :
  table_change int rq (orders w) (url_edit_order oid) (orders (snd (edit_order int oid rq w))).
Proof.
  unfold edit_order.
  match goal with |- context [require_staff _ ?f _ _] =>
    destruct (require_staff_tables (Some "admin") f rq w) as [->|(_ & -> & _)]; [|apply tc_none]
  end.
  destruct (orders w !! oid) as [o|] eqn:Ho; [|apply tc_none].
  destruct (method rq); [apply tc_none|].
  destruct (match assigned_cans int rq with Some _ => _ | None => _ end); [|apply tc_none].
  simpl. by apply tc_edit.
Qed.

Lemma delete_order_table_change int oid rq w :
  table_change int rq (orders w) (url_delete_order oid) (orders (snd (delete_order oid rq w))).
Proof.
  unfold delete_order.
  match goal with |- context [require_staff _ ?f _ _] =>
    destruct (require_staff_tables (Some "admin") f rq w) as [->|(_ & -> & _)]; [|apply tc_none]
  end.
  destruct (orders w !! oid) as [o|] eqn:Ho; [apply tc_delete | apply tc_none].
Qed.

Lemma only_table_change int m f r rq w :
  table_change int rq (orders w) r (orders (snd (f rq w))) →
  table_change int rq (orders w) r (orders (snd (only m f rq w))).
Proof.
  intros H. unfold only.
  destruct m, (method rq); first [exact H | apply tc_none].
Qed.

(** Every request does to the order table one of the five things of
    [table_change]. *)
Lemma dispatch_table_change int chk r rq w :
  table_change int rq (orders w) r (orders (snd (dispatch int chk r rq w))).
Proof.
  destruct r; unfold dispatch; try apply only_table_change;
    auto using place_order_table_change, enter_payment_table_change,
               edit_order_table_change, delete_order_table_change.
  - apply tc_none.
  - unfold route_send_otp. destruct (negb _); apply tc_none.
  - apply tc_none.
  - unfold customer_dashboard, require_customer.
    destruct (Session.customer_phone (session w)); apply tc_none.
  - unfold staff_login. destruct (method rq); [apply tc_none|].
    destruct (user_by_username _ _) as [[uid u]|]; [|apply tc_none].
    destruct (chk _ _); apply tc_none.
  - apply tc_none.
  - unfold staff_dashboard.
    match goal with |- context [require_staff _ ?f _ _] =>
      destruct (require_staff_tables None f rq w) as [->|(_ & -> & _)]; [|apply tc_none]
    end.
    destruct (current_staff w); apply tc_none.
  - unfold view_order. destruct (orders w !! order_id); [|apply tc_none].
    destruct (Session.customer_phone (session w)); [|apply tc_none].
    destruct (bool_decide _); apply tc_none.
Qed.










(** * Further properties of the code *)

(** ** Looking a user up by name *)

Lemma user_by_username_Some table name i u :
  user_by_username table name = Some (i, u) →
  table !! i = Some u ∧ User.username u = name.
Proof.
  unfold user_by_username. intros H%head_Some_elem_of.
  apply list_elem_of_filter in H as [Hn H]. by apply elem_of_map_to_list in H.
Qed.

Lemma user_by_username_None table name :
  user_by_username table name = None ↔ ¬ has_username table name.
Proof.
  unfold user_by_username, has_username. rewrite head_None. split.
  - intros H (i & u & Hi & Hu).
    apply (filter_nil_not_elem_of _ _ (i, u) H); [done|]. by apply elem_of_map_to_list.
  - intros H. destruct (filter _ _) as [|[i u] l] eqn:E; [done|]. exfalso. apply H.
    assert ((i, u) ∈ filter (λ r : Z * User.t, User.username r.2 = name)
                            (map_to_list table)) as Hin by (rewrite E; left).
    apply list_elem_of_filter in Hin as [Hn Hin]. apply elem_of_map_to_list in Hin.
    by exists i, u.
Qed.

Lemma user_by_username_found table name :
  has_username table name →
  ∃ i u, user_by_username table name = Some (i, u) ∧
         table !! i = Some u ∧ User.username u = name.
Proof.
  intros H. destruct (user_by_username table name) as [[i u]|] eqn:E.
  - exists i, u. split; [done|]. by apply user_by_username_Some.
  - by apply user_by_username_None in E.
Qed.

(** ** Start-up *)

Lemma init_db_and_users_blocks gph cfg sa sm table :
  init_db_and_users gph cfg sa sm table
  = account_block (gph sm) (MANAGER_USERNAME cfg) (MANAGER_PASSWORD cfg) "manager"
      (account_block (gph sa) (ADMIN_USERNAME cfg) (ADMIN_PASSWORD cfg) "admin" table).
Proof. reflexivity. Qed.

Lemma opt_bool_Some v : opt_bool v = true ↔ ∃ s, v = Some s ∧ s ≠ "".
Proof.
  destruct v as [s|]; simpl.
  - rewrite str_bool_true. split; [eauto|]. by intros (? & [= <-] & ?).
  - split; [done|]. by intros (? & ? & ?).
Qed.

Lemma credentials_set u p :
  opt_bool u && opt_bool p = true ↔ ∃ name pw, credentials u p name pw.
Proof.
  rewrite andb_true_iff, !opt_bool_Some. unfold credentials. split.
  - intros [(n & -> & ?) (q & -> & ?)]. by exists n, q.
  - intros (n & q & -> & ? & -> & ?). split; eauto.
Qed.

Lemma account_block_unset hash u p role table :
  (¬ ∃ name pw, credentials u p name pw) →
  account_block hash u p role table = table.
Proof.
  intros H. unfold account_block.
  destruct (opt_bool u && opt_bool p) eqn:E; [|done].
  exfalso. by apply H, credentials_set.
Qed.

Lemma account_block_keeps hash u p role table i x :
  table !! i = Some x → account_block hash u p role table !! i = Some x.
Proof.
  intros Hi. unfold account_block.
  destruct (opt_bool u && opt_bool p); [|done].
  destruct (user_by_username table (default "" u)); [done|].
  rewrite lookup_insert_ne; [done|]. intros <-. by rewrite next_id_fresh in Hi.
Qed.

Lemma account_block_rows hash u p role table i x :
  account_block hash u p role table !! i = Some x →
  table !! i = Some x ∨
  ∃ name pw, credentials u p name pw ∧ ¬ has_username table name ∧
             i = next_id table ∧ x = User.mk name (hash pw) role.
Proof.
  unfold account_block.
  destruct (opt_bool u && opt_bool p) eqn:E; [|by left].
  apply credentials_set in E as (name & pw & Hc).
  pose proof Hc as (-> & ? & -> & ?). simpl.
  destruct (user_by_username table name) eqn:Hu; [by left|].
  apply user_by_username_None in Hu.
  intros [[<- <-]|[_ ?]]%lookup_insert_Some; [|by left].
  right. by exists name, pw.
Qed.

Lemma account_block_present hash u p role table name pw :
  credentials u p name pw → has_username table name →
  account_block hash u p role table = table.
Proof.
  intros Hc Hn. unfold account_block.
  rewrite (proj2 (credentials_set u p)) by eauto.
  destruct Hc as (-> & _). simpl.
  by destruct (user_by_username_found _ _ Hn) as (i & x & -> & _).
Qed.

Lemma account_block_has hash u p role table name pw :
  credentials u p name pw →
  has_username (account_block hash u p role table) name.
Proof.
  intros Hc. destruct (user_by_username table name) as [[i x]|] eqn:E.
  - apply user_by_username_Some in E as [Hi Hx].
    exists i, x. split; [|done]. by apply account_block_keeps.
  - unfold account_block. rewrite (proj2 (credentials_set u p)) by eauto.
    destruct Hc as (-> & _ & -> & _). simpl. rewrite E.
    eexists _, _. by rewrite lookup_insert_eq.
Qed.

Lemma has_username_keeps hash u p role table name :
  has_username table name → has_username (account_block hash u p role table) name.
Proof.
  intros (i & x & Hi & Hx). exists i, x. split; [|done]. by apply account_block_keeps.
Qed.

Lemma account_block_unique hash u p role table :
  unique_usernames table → unique_usernames (account_block hash u p role table).
Proof.
  intros Huniq i j x y Hi Hj Hxy.
  apply account_block_rows in Hi as [Hi|(n & pw & _ & Hn & -> & ->)];
    apply account_block_rows in Hj as [Hj|(n' & pw' & _ & Hn' & -> & ->)].
  - by eapply Huniq.
  - exfalso. apply Hn'. by exists i, x.
  - exfalso. apply Hn. exists j, y. by split.
  - done.
Qed.

(** X1: every account in the table after start-up was in it before, or
    is the configured admin (both variables set and non-empty, role admin,
    the hash of the configured password) or the configured manager.
    Start-up creates no other account. *)
Theorem init_db_creates_only_configured gph cfg sa sm table i x :
  init_db_and_users gph cfg sa sm table !! i = Some x →
  table !! i = Some x ∨
  (∃ name pw, credentials (ADMIN_USERNAME cfg) (ADMIN_PASSWORD cfg) name pw ∧
              ¬ has_username table name ∧
              x = User.mk name (gph sa pw) "admin") ∨
  (∃ name pw, credentials (MANAGER_USERNAME cfg) (MANAGER_PASSWORD cfg) name pw ∧
              ¬ has_username table name ∧
              x = User.mk name (gph sm pw) "manager").
Proof.
  rewrite init_db_and_users_blocks.
  intros [H|(n & pw & Hc & Hn & _ & ->)]%account_block_rows.
  - apply account_block_rows in H as [H|(n & pw & Hc & Hn & _ & ->)]; [by left|].
    right. left. by exists n, pw.
  - right. right. exists n, pw. split; [done|]. split; [|done].
    intros H. apply Hn. by apply has_username_keeps.
Qed.

Lemma init_db_creates_only_configured_witness :
  init_db_and_users sample_hash sample_config "s1" "s2" ∅ !! 2
    = Some (User.mk "mgr1" "pbkdf2:mgr1" "manager") ∧
  ∃ name pw, credentials (Some "mgr1") (Some "mgr1") name pw ∧
             User.mk "mgr1" "pbkdf2:mgr1" "manager"
               = User.mk name (sample_hash "s2" pw) "manager".
Proof.
  assert (init_db_and_users sample_hash sample_config "s1" "s2" ∅ !! 2
          = Some (User.mk "mgr1" "pbkdf2:mgr1" "manager")) as H0 by (vm_compute; reflexivity).
  split; [exact H0|].
  destruct (init_db_creates_only_configured sample_hash sample_config "s1" "s2" ∅ 2
              (User.mk "mgr1" "pbkdf2:mgr1" "manager") H0)
    as [H|[(n & pw & _ & _ & H)|(n & pw & Hc & _ & H)]].
  - discriminate H.
  - discriminate H.
  - exists n, pw. split; [exact Hc | exact H].
Defined.

Lemma staff_login_rejects chk rq w :
  method rq = POST →
  (∀ i u, users w !! i = Some u →
          User.username u = form_get rq "username" "" →
          chk (User.password_hash u) (form_get rq "password" "") = false) →
  staff_login chk rq w
    = (redirect "staff_login", flash "Invalid staff credentials." "error" w).
Proof.
  intros Hm Hno. unfold staff_login. rewrite Hm.
  destruct (user_by_username _ _) as [[i u]|] eqn:E; [|done].
  apply user_by_username_Some in E as [Hi Hu]. by rewrite (Hno i u Hi Hu).
Qed.

(** X2: when neither role has both its variables set and non-empty,
    start-up leaves the user table as it is; on an empty table no account
    exists afterwards and every staff login, whatever is submitted, is
    answered "Invalid staff credentials." and sets no staff id: there is
    no built-in account. *)
Theorem init_db_without_credentials gph cfg sa sm :
  (¬ ∃ name pw, credentials (ADMIN_USERNAME cfg) (ADMIN_PASSWORD cfg) name pw) →
  (¬ ∃ name pw, credentials (MANAGER_USERNAME cfg) (MANAGER_PASSWORD cfg) name pw) →
  (∀ table, init_db_and_users gph cfg sa sm table = table) ∧
  (∀ chk rq w,
     users w = init_db_and_users gph cfg sa sm ∅ → method rq = POST →
     staff_login chk rq w
       = (redirect "staff_login", flash "Invalid staff credentials." "error" w) ∧
     currentStaffId (snd (staff_login chk rq w)) = currentStaffId w).
Proof.
  intros Ha Hm.
  assert (∀ table, init_db_and_users gph cfg sa sm table = table) as Hinit.
  { intros table. rewrite init_db_and_users_blocks.
    by rewrite (account_block_unset _ _ _ _ _ Ha), (account_block_unset _ _ _ _ _ Hm). }
  split; [done|]. intros chk rq w Hu Hp. rewrite Hinit in Hu.
  rewrite staff_login_rejects; [done|done|].
  intros i u Hi. rewrite Hu, lookup_empty in Hi. done.
Qed.

Lemma init_db_without_credentials_witness :
  init_db_and_users sample_hash
    {| ADMIN_USERNAME := Some "boss"; ADMIN_PASSWORD := None;
       MANAGER_USERNAME := Some ""; MANAGER_PASSWORD := Some "mgr1" |}
    "s1" "s2" sample_users = sample_users ∧
  fst (staff_login sample_check (post [("username", "boss"); ("password", "")])
         {| session := anonymous; users := ∅; orders := ∅ |})
    = redirect "staff_login".
Proof.
  destruct (init_db_without_credentials sample_hash
              {| ADMIN_USERNAME := Some "boss"; ADMIN_PASSWORD := None;
                 MANAGER_USERNAME := Some ""; MANAGER_PASSWORD := Some "mgr1" |}
              "s1" "s2") as [Hkeep Hlogin].
  - intros (n & pw & _ & _ & H & _). discriminate H.
  - intros (n & pw & H & Hn & _). simpl in H. injection H as <-. by apply Hn.
  - split; [apply Hkeep|].
    destruct (Hlogin sample_check (post [("username", "boss"); ("password", "")])
                {| session := anonymous; users := ∅; orders := ∅ |}) as [-> _];
      reflexivity.
Defined.

(** X3: start-up never removes or rewrites an account that is already
    there, and it keeps the usernames of the table distinct. *)
Theorem init_db_keeps_accounts gph cfg sa sm table :
  (∀ i x, table !! i = Some x →
          init_db_and_users gph cfg sa sm table !! i = Some x) ∧
  (unique_usernames table →
   unique_usernames (init_db_and_users gph cfg sa sm table)).
Proof.
  rewrite init_db_and_users_blocks. split.
  - intros i x Hi. by do 2 apply account_block_keeps.
  - intros H. by do 2 apply account_block_unique.
Qed.

Lemma sample_users_unique : unique_usernames sample_users.
Proof.
  intros i j u v Hi Hj. unfold sample_users in *.
  apply lookup_insert_Some in Hi as [[<- <-]|[_ Hi]];
    [|apply lookup_singleton_Some in Hi as [<- <-]];
    (apply lookup_insert_Some in Hj as [[<- <-]|[_ Hj]];
     [|apply lookup_singleton_Some in Hj as [<- <-]]); done.
Qed.

Lemma init_db_keeps_accounts_witness :
  unique_usernames
    (init_db_and_users sample_hash
       {| ADMIN_USERNAME := Some "root"; ADMIN_PASSWORD := Some "pw";
          MANAGER_USERNAME := Some "mgr1"; MANAGER_PASSWORD := Some "other" |}
       "s1" "s2" sample_users).
Proof.
  apply (init_db_keeps_accounts sample_hash
           {| ADMIN_USERNAME := Some "root"; ADMIN_PASSWORD := Some "pw";
              MANAGER_USERNAME := Some "mgr1"; MANAGER_PASSWORD := Some "other" |}
           "s1" "s2" sample_users).
  exact sample_users_unique.
Defined.

(** X4: a second start-up changes nothing, whatever salts it draws and
    whatever passwords are configured by then, as long as the usernames are
    the same and a role that was left out the first time is still left out:
    the accounts keep the hashes of the first start-up. *)
Theorem init_db_twice gph cfg cfg' sa sm sa' sm' table :
  ADMIN_USERNAME cfg' = ADMIN_USERNAME cfg →
  MANAGER_USERNAME cfg' = MANAGER_USERNAME cfg →
  (opt_bool (ADMIN_PASSWORD cfg') = true → opt_bool (ADMIN_PASSWORD cfg) = true) →
  (opt_bool (MANAGER_PASSWORD cfg') = true → opt_bool (MANAGER_PASSWORD cfg) = true) →
  init_db_and_users gph cfg' sa' sm' (init_db_and_users gph cfg sa sm table)
  = init_db_and_users gph cfg sa sm table.
Proof.
  intros Ea Em Ha Hm. rewrite !init_db_and_users_blocks, Ea, Em.
  set (t1 := account_block (gph sa) _ _ "admin" table).
  set (t2 := account_block (gph sm) _ _ "manager" t1).
  assert (account_block (gph sa') (ADMIN_USERNAME cfg) (ADMIN_PASSWORD cfg') "admin" t2 = t2)
    as ->.
  { destruct (opt_bool (ADMIN_USERNAME cfg) && opt_bool (ADMIN_PASSWORD cfg')) eqn:E.
    - pose proof E as [Hu Hp]%andb_true_iff.
      apply credentials_set in E as (n & pw & Hc).
      assert (∃ pw0, credentials (ADMIN_USERNAME cfg) (ADMIN_PASSWORD cfg) n pw0)
        as [pw0 Hc0].
      { apply Ha, opt_bool_Some in Hp as (pw0 & Hp0 & ?).
        destruct Hc as (Hn & ? & _). by exists pw0. }
      eapply account_block_present; [exact Hc|].
      apply has_username_keeps. by eapply account_block_has.
    - unfold account_block. by rewrite E. }
  destruct (opt_bool (MANAGER_USERNAME cfg) && opt_bool (MANAGER_PASSWORD cfg')) eqn:E.
  - pose proof E as [Hu Hp]%andb_true_iff.
    apply credentials_set in E as (n & pw & Hc).
    assert (∃ pw0, credentials (MANAGER_USERNAME cfg) (MANAGER_PASSWORD cfg) n pw0)
      as [pw0 Hc0].
    { apply Hm, opt_bool_Some in Hp as (pw0 & Hp0 & ?).
      destruct Hc as (Hn & ? & _). by exists pw0. }
    eapply account_block_present; [exact Hc|]. by eapply account_block_has.
  - unfold account_block. by rewrite E.
Qed.

Lemma init_db_twice_witness :
  init_db_and_users sample_hash
    {| ADMIN_USERNAME := Some "boss"; ADMIN_PASSWORD := Some "changed";
       MANAGER_USERNAME := Some "mgr1"; MANAGER_PASSWORD := None |}
    "s3" "s4" (init_db_and_users sample_hash sample_config "s1" "s2" ∅)
  = init_db_and_users sample_hash sample_config "s1" "s2" ∅.
Proof.
  apply (init_db_twice sample_hash sample_config
           {| ADMIN_USERNAME := Some "boss"; ADMIN_PASSWORD := Some "changed";
              MANAGER_USERNAME := Some "mgr1"; MANAGER_PASSWORD := None |});
    first [reflexivity | discriminate].
Defined.

(** ** Staff login *)

Lemma staff_login_accepts chk rq w i u :
  method rq = POST →
  user_by_username (users w) (form_get rq "username" "") = Some (i, u) →
  chk (User.password_hash u) (form_get rq "password" "") = true →
  staff_login chk rq w =
    (redirect "staff_dashboard",
     flash "Staff login OK." "success"
       (with_session (λ s, Session.mk (Session.customer_phone s) (Some i)
                                      (Session.flashes s)) w)).
Proof. intros Hm Hu Hc. unfold staff_login. by rewrite Hm, Hu, Hc. Qed.

Lemma unique_lookup table name i u j v :
  unique_usernames table →
  user_by_username table name = Some (i, u) →
  table !! j = Some v → User.username v = name → i = j ∧ u = v.
Proof.
  intros Huniq [Hi Hu]%user_by_username_Some Hj Hv.
  assert (i = j) as -> by (eapply Huniq; [done..|congruence]).
  split; [done|congruence].
Qed.

(** X5: a staff login that matches no account, because the username
    is unknown or because the password check fails, gets one and the same
    answer: the flash "Invalid staff credentials." and a redirect to the
    login page; neither identity slot and no table changes. *)
Theorem staff_login_invalid chk rq w :
  method rq = POST →
  (∀ i u, users w !! i = Some u →
          User.username u = form_get rq "username" "" →
          chk (User.password_hash u) (form_get rq "password" "") = false) →
  fst (staff_login chk rq w) = redirect "staff_login" ∧
  last_flash (snd (staff_login chk rq w)) = Some ("error", "Invalid staff credentials.") ∧
  currentStaffId (snd (staff_login chk rq w)) = currentStaffId w ∧
  currentCustomerPhone (snd (staff_login chk rq w)) = currentCustomerPhone w ∧
  users (snd (staff_login chk rq w)) = users w ∧
  orders (snd (staff_login chk rq w)) = orders w.
Proof.
  intros Hm Hno. rewrite (staff_login_rejects _ _ _ Hm Hno). simpl.
  split; [done|]. split; [apply last_flash_flash | done].
Qed.

Lemma staff_login_invalid_witness :
  fst (staff_login sample_check (post [("username", "nobody"); ("password", "mgr1")])
         (world_of (customer_session "555-1234"))) = redirect "staff_login" ∧
  snd (staff_login sample_check (post [("username", "mgr1"); ("password", "guess")])
         (world_of (customer_session "555-1234")))
    = snd (staff_login sample_check (post [("username", "nobody"); ("password", "mgr1")])
             (world_of (customer_session "555-1234"))).
Proof.
  assert (∀ name pw, (name, pw) = ("nobody", "mgr1") ∨ (name, pw) = ("mgr1", "guess") →
            ∀ i u, sample_users !! i = Some u → User.username u = name →
                   sample_check (User.password_hash u) pw = false) as Hno.
  { intros name pw Hnp i u Hi Hu. unfold sample_users in Hi.
    apply lookup_insert_Some in Hi as [[<- <-]|[_ Hi]];
      [|apply lookup_singleton_Some in Hi as [<- <-]];
      destruct Hnp as [[= -> ->]|[= -> ->]]; first [discriminate Hu | reflexivity]. }
  split.
  - apply (staff_login_invalid sample_check
             (post [("username", "nobody"); ("password", "mgr1")])
             (world_of (customer_session "555-1234")) eq_refl).
    apply (Hno "nobody" "mgr1"). by left.
  - reflexivity.
Defined.

Lemma staff_login_sets_checked_account_aux chk rq w :
  (fst (staff_login chk rq w) = redirect "staff_dashboard" →
   method rq = POST ∧
   ∃ sid u, currentStaffId (snd (staff_login chk rq w)) = Some sid ∧
            users w !! sid = Some u ∧
            User.username u = form_get rq "username" "" ∧
            chk (User.password_hash u) (form_get rq "password" "") = true) ∧
  (currentStaffId (snd (staff_login chk rq w)) ≠ currentStaffId w →
   fst (staff_login chk rq w) = redirect "staff_dashboard").
Proof.
  split.
  - unfold staff_login. destruct (method rq); [done|].
    destruct (user_by_username _ _) as [[i u]|] eqn:E; [|done].
    destruct (chk _ _) eqn:Hc; [|done]. intros _. split; [done|].
    apply user_by_username_Some in E as [Hi Hu]. by exists i, u.
  - unfold staff_login. destruct (method rq); [done|].
    destruct (user_by_username _ _) as [[i u]|]; [|done].
    by destruct (chk _ _).
Qed.

Lemma staff_login_logs_in chk rq w sid u :
  unique_usernames (users w) → method rq = POST →
  users w !! sid = Some u →
  User.username u = form_get rq "username" "" →
  chk (User.password_hash u) (form_get rq "password" "") = true →
  fst (staff_login chk rq w) = redirect "staff_dashboard" ∧
  staff_is (snd (staff_login chk rq w)) u.
Proof.
  intros Huniq Hm Hs Hu Hc.
  destruct (user_by_username_found (users w) (form_get rq "username" ""))
    as (i & x & E & _); [by exists sid, u|].
  destruct (unique_lookup _ _ _ _ _ _ Huniq E Hs Hu) as [-> ->].
  rewrite (staff_login_accepts _ _ _ _ _ Hm E Hc). split; [done|].
  by exists sid.
Qed.

(** X6: [staff_login] answers with the redirect to the staff dashboard
    only for a POST whose username is that of an account whose hash passes
    the password check, and then the session's staff id is the key of that
    account; the staff id changes in no other case; the customer phone and
    the tables never change.  When the usernames of the table are distinct,
    a POST with the username of an account and a password that passes its
    check does log in as that account. *)
Theorem staff_login_sets_checked_account chk rq w :
  (fst (staff_login chk rq w) = redirect "staff_dashboard" →
   method rq = POST ∧
   ∃ sid u, currentStaffId (snd (staff_login chk rq w)) = Some sid ∧
            users w !! sid = Some u ∧
            User.username u = form_get rq "username" "" ∧
            chk (User.password_hash u) (form_get rq "password" "") = true) ∧
  (currentStaffId (snd (staff_login chk rq w)) ≠ currentStaffId w →
   fst (staff_login chk rq w) = redirect "staff_dashboard") ∧
  currentCustomerPhone (snd (staff_login chk rq w)) = currentCustomerPhone w ∧
  users (snd (staff_login chk rq w)) = users w ∧
  orders (snd (staff_login chk rq w)) = orders w ∧
  (∀ sid u,
     unique_usernames (users w) → method rq = POST →
     users w !! sid = Some u →
     User.username u = form_get rq "username" "" →
     chk (User.password_hash u) (form_get rq "password" "") = true →
     fst (staff_login chk rq w) = redirect "staff_dashboard" ∧
     staff_is (snd (staff_login chk rq w)) u).
Proof.
  destruct (staff_login_sets_checked_account_aux chk rq w) as [Honly Hch].
  split_and!; [done | done | | | | intros; by eapply staff_login_logs_in];
    unfold staff_login; destruct (method rq); try done;
    (destruct (user_by_username _ _) as [[i u]|]; [|done]); by destruct (chk _ _).
Qed.

Lemma staff_login_sets_checked_account_witness :
  staff_is (snd (staff_login sample_check
                   (post [("username", "mgr1"); ("password", "mgr1")])
                   (world_of (customer_session "555-1234"))))
           (User.mk "mgr1" "pbkdf2:mgr1" "manager") ∧
  ∃ sid u, currentStaffId (snd (staff_login sample_check
                                  (post [("username", "mgr1"); ("password", "mgr1")])
                                  (world_of (customer_session "555-1234")))) = Some sid ∧
           users (world_of (customer_session "555-1234")) !! sid = Some u ∧
           User.username u = "mgr1".
Proof.
  destruct (staff_login_sets_checked_account sample_check
              (post [("username", "mgr1"); ("password", "mgr1")])
              (world_of (customer_session "555-1234")))
    as (Honly & _ & _ & _ & _ & Hdoes).
  destruct (Hdoes 2 (User.mk "mgr1" "pbkdf2:mgr1" "manager") sample_users_unique
              eq_refl eq_refl eq_refl eq_refl) as [Hr Hs].
  split; [exact Hs|].
  destruct (Honly Hr) as (_ & sid & u & H1 & H2 & H3 & _). by exists sid, u.
Defined.

(** X7: after start-up on an empty table with the admin's variables set,
    a login with the configured username and password (which passes the
    check against the hash start-up stored) resolves to an account whose
    role is admin, also when the manager is configured under the same
    username. *)
Theorem init_db_then_admin_login gph chk cfg sa sm name pw rq w :
  credentials (ADMIN_USERNAME cfg) (ADMIN_PASSWORD cfg) name pw →
  chk (gph sa pw) pw = true →
  users w = init_db_and_users gph cfg sa sm ∅ →
  method rq = POST →
  form rq !! "username" = Some name → form rq !! "password" = Some pw →
  fst (staff_login chk rq w) = redirect "staff_dashboard" ∧
  staff_is (snd (staff_login chk rq w)) (User.mk name (gph sa pw) "admin").
Proof.
  intros Hc Hchk Hw Hm Hfu Hfp.
  assert (unique_usernames (users w)) as Huniq.
  { rewrite Hw, init_db_and_users_blocks. do 2 apply account_block_unique.
    intros i j u v Hi. by rewrite lookup_empty in Hi. }
  assert (users w !! next_id (∅ : gmap Z User.t) = Some (User.mk name (gph sa pw) "admin"))
    as Hrow.
  { rewrite Hw, init_db_and_users_blocks. apply account_block_keeps.
    unfold account_block. rewrite (proj2 (credentials_set _ _)) by eauto.
    destruct Hc as (-> & _ & -> & _). simpl.
    rewrite (proj2 (user_by_username_None ∅ name)).
    - apply lookup_insert_eq.
    - intros (i & u & Hi & _). by rewrite lookup_empty in Hi. }
  apply (staff_login_logs_in _ _ _ _ _ Huniq Hm Hrow); unfold form_get; simpl.
  - by rewrite Hfu.
  - by rewrite Hfp.
Qed.

Lemma init_db_then_admin_login_witness :
  staff_is
    (snd (staff_login sample_check (post [("username", "boss"); ("password", "boss")])
            {| session := anonymous;
               users := init_db_and_users sample_hash
                          {| ADMIN_USERNAME := Some "boss"; ADMIN_PASSWORD := Some "boss";
                             MANAGER_USERNAME := Some "boss";
                             MANAGER_PASSWORD := Some "other" |} "s1" "s2" ∅;
               orders := ∅ |}))
    (User.mk "boss" "pbkdf2:boss" "admin").
Proof.
  apply (init_db_then_admin_login sample_hash sample_check
           {| ADMIN_USERNAME := Some "boss"; ADMIN_PASSWORD := Some "boss";
              MANAGER_USERNAME := Some "boss"; MANAGER_PASSWORD := Some "other" |}
           "s1" "s2" "boss" "boss").
  - repeat split; discriminate.
  - reflexivity.
  - reflexivity.
  - reflexivity.
  - reflexivity.
  - reflexivity.
Defined.

(** X8: when both roles are configured under one username that the
    table does not have yet, start-up creates the admin account only: the
    manager account is not created. *)
Theorem init_db_same_username gph cfg sa sm table name pa pm :
  credentials (ADMIN_USERNAME cfg) (ADMIN_PASSWORD cfg) name pa →
  credentials (MANAGER_USERNAME cfg) (MANAGER_PASSWORD cfg) name pm →
  ¬ has_username table name →
  init_db_and_users gph cfg sa sm table
    = <[next_id table := User.mk name (gph sa pa) "admin"]> table ∧
  ∀ i u, init_db_and_users gph cfg sa sm table !! i = Some u →
         User.role u = "manager" → table !! i = Some u.
Proof.
  intros Ha Hm Hn.
  assert (init_db_and_users gph cfg sa sm table
          = <[next_id table := User.mk name (gph sa pa) "admin"]> table) as E.
  { rewrite init_db_and_users_blocks.
    rewrite (account_block_present _ _ _ _ _ _ _ Hm) by (by eapply account_block_has).
    unfold account_block. rewrite (proj2 (credentials_set _ _)) by eauto.
    destruct Ha as (-> & _ & -> & _). simpl.
    by rewrite (proj2 (user_by_username_None table name)). }
  split; [done|]. rewrite E. intros i u [[<- <-]|[_ ?]]%lookup_insert_Some; [|done].
  discriminate.
Qed.

Lemma init_db_same_username_witness :
  init_db_and_users sample_hash
    {| ADMIN_USERNAME := Some "boss"; ADMIN_PASSWORD := Some "boss";
       MANAGER_USERNAME := Some "boss"; MANAGER_PASSWORD := Some "other" |} "s1" "s2" ∅
  = {[ 1 := User.mk "boss" "pbkdf2:boss" "admin" ]}.
Proof.
  destruct (init_db_same_username sample_hash
           {| ADMIN_USERNAME := Some "boss"; ADMIN_PASSWORD := Some "boss";
              MANAGER_USERNAME := Some "boss"; MANAGER_PASSWORD := Some "other" |}
           "s1" "s2" ∅ "boss" "boss" "other") as [H _].
  - repeat split; discriminate.
  - repeat split; discriminate.
  - intros (i & u & Hi & _). by rewrite lookup_empty in Hi.
  - exact H.
Defined.

(** ** Every route: what is never touched *)

Lemma dispatch_users int chk r rq w : users (snd (dispatch int chk r rq w)) = users w.
Proof. destruct r; crunch_routes; done. Qed.

(** X9: no request to any route changes the user table, so it is the
    same after any sequence of requests: accounts are created at start-up
    only. *)
Theorem users_never_change int chk trace w :
  users (run int chk trace w) = users w.
Proof.
  revert w. induction trace as [|[r rq] trace IH]; intros w; simpl; [done|].
  by rewrite IH, dispatch_users.
Qed.

(** What a request may do to the customer phone of the session. *)
Lemma dispatch_customer_phone int chk r rq w :
  currentCustomerPhone (snd (dispatch int chk r rq w)) = currentCustomerPhone w ∨
  (r = url_send_otp ∧ strip (form_get rq "phone" "") ≠ "" ∧
   currentCustomerPhone (snd (dispatch int chk r rq w)) = Some (strip (form_get rq "phone" ""))) ∨
  (r = url_logout ∧ currentCustomerPhone (snd (dispatch int chk r rq w)) = None).
Proof.
  destruct r; try (left; crunch_routes; done).
  - unfold dispatch, only. destruct (method rq); [by left|].
    unfold route_send_otp. destruct (str_bool _) eqn:E; [|by left].
    right. left. by apply str_bool_true in E.
  - unfold dispatch, only. destruct (method rq); [|by left]. right. by right.
Qed.

(** What a request may do to the staff id of the session. *)
Lemma dispatch_staff_id int chk r rq w :
  currentStaffId (snd (dispatch int chk r rq w)) = currentStaffId w ∨
  currentStaffId (snd (dispatch int chk r rq w)) = None ∨
  (r = url_staff_login ∧
   ∃ sid, currentStaffId (snd (dispatch int chk r rq w)) = Some sid ∧ is_Some (users w !! sid)).
Proof.
  destruct r; try (crunch_routes; by auto).
  unfold dispatch.
  destruct (currentStaffId (snd (staff_login chk rq w))) as [sid|] eqn:E; [|auto].
  destruct (decide (Some sid = currentStaffId w)) as [?|Hne]; [auto|].
  right. right. split; [done|]. exists sid. split; [done|].
  destruct (staff_login_sets_checked_account_aux chk rq w) as [Honly Hch].
  destruct Honly as (_ & i & u & Hi & Hu & _); [apply Hch; congruence|].
  rewrite E in Hi. injection Hi as ->. eauto.
Qed.

(** X10: a GET request changes no table on any route: every route that
    writes the order table accepts POST only, and [edit_order] writes on
    POST only. *)
Theorem get_changes_no_table int chk r rq w :
  method rq = GET →
  orders (snd (dispatch int chk r rq w)) = orders w ∧
  users (snd (dispatch int chk r rq w)) = users w.
Proof.
  intros Hm. split; [|apply dispatch_users].
  destruct r; crunch_routes; first [done | congruence].
Qed.

Lemma get_changes_no_table_witness :
  orders (snd (dispatch sample_int sample_check (url_delete_order 5) get (world_of (staff_session 1))))
    = sample_orders ∧
  fst (dispatch sample_int sample_check (url_delete_order 5) get (world_of (staff_session 1)))
    = abort 405.
Proof.
  split; [|reflexivity].
  apply (get_changes_no_table sample_int sample_check (url_delete_order 5) get
           (world_of (staff_session 1)) eq_refl).
Defined.

(** ** Every route: the session *)

Lemma dispatch_phone_trimmed int chk r rq w :
  phone_trimmed w → phone_trimmed (snd (dispatch int chk r rq w)).
Proof.
  intros Hw p Hp.
  destruct (dispatch_customer_phone int chk r rq w) as [E|[(_ & Hne & E)|(_ & E)]];
    rewrite E in Hp.
  - by apply Hw.
  - injection Hp as <-. split; [done | apply strip_idem].
  - done.
Qed.

(** X11: the customer phone of a session is never empty and has no
    whitespace around it: every route keeps this, so it holds after any
    sequence of requests of a session that began without a phone. *)
Theorem session_phone_is_trimmed int chk trace w :
  phone_trimmed w → phone_trimmed (run int chk trace w).
Proof.
  revert w. induction trace as [|[r rq] trace IH]; intros w Hw; simpl; [done|].
  by apply IH, dispatch_phone_trimmed.
Qed.

Lemma session_phone_is_trimmed_witness :
  phone_trimmed
    (run sample_int sample_check [(url_send_otp, post [("phone", "  555-1234 ")]);
                       (url_place_order, post [("address", "3 Mill Lane")])]
       (world_of anonymous)).
Proof.
  apply (session_phone_is_trimmed sample_int sample_check _ (world_of anonymous)).
  intros p Hp. discriminate Hp.
Defined.

Lemma dispatch_staff_resolves int chk r rq w :
  staff_resolves w → staff_resolves (snd (dispatch int chk r rq w)).
Proof.
  intros Hw sid Hs. rewrite dispatch_users.
  destruct (dispatch_staff_id int chk r rq w) as [E|[E|(_ & sid' & E & Hsid)]];
    rewrite E in Hs.
  - by apply Hw.
  - done.
  - by injection Hs as <-.
Qed.

(** X12: the staff id of a session is always the key of an account:
    [staff_login] stores the key of the row it found, and no route changes
    the user table.  So after any sequence of requests of a session that
    began without a staff id, the staff guard finds the account of the
    staff id: it answers a session that has a staff id either by running the
    view or with "Permission denied.", never with the redirect to the
    login. *)
Theorem session_staff_id_resolves int chk trace w :
  staff_resolves w →
  staff_resolves (run int chk trace w) ∧
  ∀ role f rq,
    currentStaffId (run int chk trace w) ≠ None →
    require_staff role f rq (run int chk trace w) = f rq (run int chk trace w) ∨
    require_staff role f rq (run int chk trace w)
      = (redirect "staff_dashboard",
         flash "Permission denied." "error" (run int chk trace w)).
Proof.
  intros Hw.
  assert (staff_resolves (run int chk trace w)) as Hres.
  { revert w Hw. induction trace as [|[r rq] trace IH]; intros w Hw; simpl; [done|].
    by apply IH, dispatch_staff_resolves. }
  split; [done|]. intros role f rq Hs. unfold require_staff.
  destruct (Session.staff_id (session (run int chk trace w))) as [sid|] eqn:E; [|done].
  destruct (Hres sid E) as [u ->]. destruct (_ && _); auto.
Qed.

Lemma session_staff_id_resolves_witness :
  staff_resolves
    (run sample_int sample_check [(url_staff_login, post [("username", "mgr1"); ("password", "mgr1")]);
                       (url_send_otp, post [("phone", "555-1234")])]
       (world_of anonymous)) ∧
  currentStaffId
    (run sample_int sample_check [(url_staff_login, post [("username", "mgr1"); ("password", "mgr1")]);
                       (url_send_otp, post [("phone", "555-1234")])]
       (world_of anonymous)) = Some 2.
Proof.
  split; [|reflexivity].
  apply (session_staff_id_resolves sample_int sample_check _ (world_of anonymous)).
  intros sid Hs. discriminate Hs.
Defined.

(** X13: the customer phone of the session changes only at
    [route_send_otp] and [logout]; the staff id of a session whose staff id
    resolves changes only at [staff_login], [staff_logout] and [logout].
    The order routes and the dashboards leave both as they are. *)
Theorem identity_changes_only_at_session_routes int chk r rq w :
  (currentCustomerPhone (snd (dispatch int chk r rq w)) ≠ currentCustomerPhone w →
   r = url_send_otp ∨ r = url_logout) ∧
  (staff_resolves w →
   currentStaffId (snd (dispatch int chk r rq w)) ≠ currentStaffId w →
   r = url_staff_login ∨ r = url_staff_logout ∨ r = url_logout).
Proof.
  split.
  - intros Hne.
    destruct (dispatch_customer_phone int chk r rq w) as [E|[(-> & _)|(-> & _)]]; auto.
    done.
  - intros Hres Hne. unfold staff_resolves, currentStaffId in *.
    destruct r; auto; exfalso; apply Hne; clear Hne; crunch_routes; try done;
      match goal with
      | H : users w !! ?sid = None |- _ =>
          destruct (Hres sid eq_refl) as [? Hu]; congruence
      end.
Qed.

Lemma identity_changes_only_at_session_routes_witness :
  currentCustomerPhone
    (snd (dispatch sample_int sample_check url_logout get (world_of (dual_session "555-1234" 2))))
    ≠ currentCustomerPhone (world_of (dual_session "555-1234" 2)) ∧
  (url_logout = url_send_otp ∨ url_logout = url_logout) ∧
  (url_staff_logout = url_staff_login ∨ url_staff_logout = url_staff_logout ∨
   url_staff_logout = url_logout).
Proof.
  destruct (identity_changes_only_at_session_routes sample_int sample_check url_logout get
              (world_of (dual_session "555-1234" 2))) as [Hc _].
  destruct (identity_changes_only_at_session_routes sample_int sample_check url_staff_logout get
              (world_of (dual_session "555-1234" 2))) as [_ Hs].
  assert (currentCustomerPhone
            (snd (dispatch sample_int sample_check url_logout get
                    (world_of (dual_session "555-1234" 2))))
          ≠ currentCustomerPhone (world_of (dual_session "555-1234" 2))) as Hne
    by discriminate.
  split; [exact Hne|]. split; [exact (Hc Hne)|].
  apply Hs.
  - intros sid [= <-]. by exists (User.mk "mgr1" "pbkdf2:mgr1" "manager").
  - discriminate.
Defined.

(** ** Every route: the rows of the order table *)

Lemma table_change_lookup int rq t r t' i :
  table_change int rq t r t' →
  t' !! i = t !! i ∨
  (r = url_place_order ∧ i = next_id t ∧ t !! i = None ∧ is_Some (t' !! i)) ∨
  (∃ o o', r = url_enter_payment i ∧ t !! i = Some o ∧ t' !! i = Some o' ∧
           same_but_payment o o') ∨
  (∃ o, r = url_edit_order i ∧ t !! i = Some o ∧ t' !! i = Some (apply_edit int rq o)) ∨
  (r = url_delete_order i ∧ t' !! i = None).
Proof.
  intros [r0|o ? ? ? ?|oid o o' Ho Hsame Hs|oid o Ho|oid].
  - by left.
  - destruct (decide (next_id t = i)) as [<-|Hne].
    + right. left. rewrite lookup_insert_eq. split_and!; [done|done|apply next_id_fresh|eauto].
    + left. by rewrite lookup_insert_ne.
  - destruct (decide (oid = i)) as [<-|Hne].
    + right. right. left. exists o, o'. by rewrite lookup_insert_eq.
    + left. by rewrite lookup_insert_ne.
  - destruct (decide (oid = i)) as [<-|Hne].
    + do 3 right. left. exists o. by rewrite lookup_insert_eq.
    + left. by rewrite lookup_insert_ne.
  - destruct (decide (oid = i)) as [<-|Hne].
    + do 4 right. by rewrite lookup_delete_eq.
    + left. by rewrite lookup_delete_ne.
Qed.

(** X14: whatever the request, an order that is in the table is still
    there afterwards unless the request is a delete of that very order, and
    its [customer_phone] and [created_at] are what they were: no route
    writes these two columns. *)
Theorem order_phone_and_time_are_fixed int chk r rq w i o :
  orders w !! i = Some o →
  (orders (snd (dispatch int chk r rq w)) !! i = None → r = url_delete_order i) ∧
  (∀ o', orders (snd (dispatch int chk r rq w)) !! i = Some o' →
         Order.customer_phone o' = Order.customer_phone o ∧
         Order.created_at o' = Order.created_at o).
Proof.
  intros Hi.
  destruct (table_change_lookup int rq _ r _ i (dispatch_table_change int chk r rq w))
    as [E|[(_ & _ & Hn & _)|[(o0 & o1 & _ & H0 & H1 & Hs)|[(o0 & _ & H0 & H1)|[-> E]]]]].
  - rewrite E, Hi. split; [done|]. by intros o' [= <-].
  - congruence.
  - rewrite H1. split; [done|]. intros o' [= <-].
    destruct Hs as (Hp & _ & _ & _ & _ & Hc). rewrite Hi in H0. injection H0 as <-. done.
  - rewrite H1. split; [done|]. intros o' [= <-].
    rewrite Hi in H0. by injection H0 as <-.
  - rewrite E. done.
Qed.

Lemma order_phone_and_time_are_fixed_witness :
  ∃ o', orders (snd (dispatch sample_int sample_check (url_edit_order 5)
                       (post [("customer_phone", "000"); ("created_at", "1")])
                       (world_of (staff_session 1)))) !! 5 = Some o' ∧
        Order.customer_phone o' = "555-9999" ∧ Order.created_at o' = 100.
Proof.
  destruct (orders (snd (dispatch sample_int sample_check (url_edit_order 5)
                           (post [("customer_phone", "000"); ("created_at", "1")])
                           (world_of (staff_session 1)))) !! 5) as [o'|] eqn:E.
  - exists o'. split; [reflexivity|].
    destruct (order_phone_and_time_are_fixed sample_int sample_check (url_edit_order 5)
                (post [("customer_phone", "000"); ("created_at", "1")])
                (world_of (staff_session 1)) 5 sample_order eq_refl) as [_ H].
    exact (H o' E).
  - vm_compute in E. discriminate E.
Defined.

(** X15: a key that is not in the order table before a request is in it
    afterwards only when the request placed an order, and the key is then
    larger than every key of the table before. *)
Theorem orders_appear_only_when_placed int chk r rq w i :
  orders w !! i = None →
  is_Some (orders (snd (dispatch int chk r rq w)) !! i) →
  r = url_place_order ∧ method rq = POST ∧
  ∀ j, is_Some (orders w !! j) → j < i.
Proof.
  intros Hi Hs.
  destruct (table_change_lookup int rq _ r _ i (dispatch_table_change int chk r rq w))
    as [E|[(-> & -> & _)|[(o0 & o1 & _ & H0 & _)|[(o0 & _ & H0 & _)|[_ E]]]]].
  - rewrite E, Hi in Hs. by destruct Hs.
  - split; [done|]. split.
    + destruct (method rq) eqn:Hm; [|done]. exfalso.
      unfold dispatch, only in Hs. rewrite Hm in Hs. simpl in Hs.
      rewrite Hi in Hs. by destruct Hs.
    + intros j Hj. by apply next_id_above.
  - congruence.
  - congruence.
  - rewrite E in Hs. by destruct Hs.
Qed.

Lemma orders_appear_only_when_placed_witness :
  is_Some (orders (snd (dispatch sample_int sample_check url_place_order
                          (post [("address", "3 Mill Lane")])
                          (world_of (customer_session "555-1234")))) !! 6) ∧
  ∀ j, is_Some (sample_orders !! j) → j < 6.
Proof.
  assert (is_Some (orders (snd (dispatch sample_int sample_check url_place_order
                                  (post [("address", "3 Mill Lane")])
                                  (world_of (customer_session "555-1234")))) !! 6)) as Hs
    by (vm_compute; eauto).
  split; [exact Hs|].
  apply (orders_appear_only_when_placed sample_int sample_check url_place_order
           (post [("address", "3 Mill Lane")])
           (world_of (customer_session "555-1234")) 6 eq_refl Hs).
Defined.

(** ** The dashboards *)

Local Instance newer_first_total : Total newer_first.
Proof. intros a b. unfold newer_first. lia. Qed.

Local Instance newer_first_trans : Transitive newer_first.
Proof. intros a b c. unfold newer_first. lia. Qed.

Lemma order_by_created_at_desc_sorted rows :
  StronglySorted newer_first (order_by_created_at_desc rows).
Proof. apply StronglySorted_merge_sort; apply _. Qed.

Lemma order_by_created_at_desc_NoDup rows :
  NoDup rows → NoDup (order_by_created_at_desc rows).
Proof. unfold order_by_created_at_desc. by rewrite merge_sort_Permutation. Qed.

(** X16: for a session with a customer phone, [customer_dashboard]
    shows that phone and a list that holds exactly the orders whose
    [customer_phone] equals it, each once, an order never after one that was
    created earlier; it changes nothing. *)
Theorem customer_dashboard_lists_own_orders rq w p :
  currentCustomerPhone w = Some p →
  ∃ rows,
    customer_dashboard rq w = (render_template (customer_dashboard_html p rows), w) ∧
    (∀ i o, (i, o) ∈ rows ↔ orders w !! i = Some o ∧ Order.customer_phone o = p) ∧
    NoDup rows ∧
    StronglySorted newer_first rows.
Proof.
  intros Hp. unfold customer_dashboard, require_customer.
  unfold currentCustomerPhone in Hp. rewrite Hp.
  eexists. split; [done|]. split_and!.
  - intros i o. rewrite order_by_created_at_desc_elem, list_elem_of_filter.
    rewrite elem_of_map_to_list. simpl. tauto.
  - apply order_by_created_at_desc_NoDup, NoDup_filter, NoDup_map_to_list.
  - apply order_by_created_at_desc_sorted.
Qed.

Lemma customer_dashboard_lists_own_orders_witness :
  customer_dashboard get (world_of (customer_session "555-9999"))
    = (render_template (customer_dashboard_html "555-9999" [(5, sample_order)]),
       world_of (customer_session "555-9999")) ∧
  ∃ rows,
    customer_dashboard get (world_of (customer_session "555-1234"))
      = (render_template (customer_dashboard_html "555-1234" rows),
         world_of (customer_session "555-1234")) ∧
    (5, sample_order) ∉ rows.
Proof.
  split; [vm_compute; reflexivity|].
  destruct (customer_dashboard_lists_own_orders get
              (world_of (customer_session "555-1234")) "555-1234" eq_refl)
    as (rows & H & Hin & _).
  exists rows. split; [exact H|].
  intros Hr. apply Hin in Hr as [_ Hr]. discriminate Hr.
Defined.

(** X17: for a resolved staff account, [staff_dashboard] lists the orders
    of the table and nothing else: a row is listed exactly when the table
    holds it under that id, each row once, so as many rows as the table
    has, an order never after one that was created earlier. *)
Theorem staff_dashboard_is_sorted rq w u :
  staff_is w u →
  ∃ rows,
    staff_dashboard rq w = (render_template (staff_dashboard_html (Some u) rows), w) ∧
    (∀ i o, (i, o) ∈ rows ↔ orders w !! i = Some o) ∧
    NoDup rows ∧
    length rows = size (orders w) ∧
    StronglySorted newer_first rows.
Proof.
  intros Hu. unfold staff_dashboard.
  rewrite (require_staff_any _ _ _ _ Hu), (current_staff_is _ _ Hu).
  eexists. split; [done|]. split_and!.
  - intros i o. by rewrite order_by_created_at_desc_elem, elem_of_map_to_list.
  - apply order_by_created_at_desc_NoDup, NoDup_map_to_list.
  - unfold order_by_created_at_desc.
    by rewrite merge_sort_Permutation, length_map_to_list.
  - apply order_by_created_at_desc_sorted.
Qed.

Lemma staff_dashboard_is_sorted_witness :
  ∃ rows,
    staff_dashboard get
      (snd (place_order sample_int (post [("address", "3 Mill Lane")])
              (world_of (dual_session "555-1234" 2))))
    = (render_template (staff_dashboard_html
                          (Some (User.mk "mgr1" "pbkdf2:mgr1" "manager")) rows),
       snd (place_order sample_int (post [("address", "3 Mill Lane")])
              (world_of (dual_session "555-1234" 2)))) ∧
    length rows = 2%nat.
Proof.
  destruct (staff_dashboard_is_sorted get
              (snd (place_order sample_int (post [("address", "3 Mill Lane")])
                      (world_of (dual_session "555-1234" 2))))
              (User.mk "mgr1" "pbkdf2:mgr1" "manager"))
    as (rows & H & _ & _ & Hlen & _).
  - exists 2. split; reflexivity.
  - exists rows. split; [exact H|]. rewrite Hlen. vm_compute. reflexivity.
Defined.

(** ** Placing, viewing and deleting *)

Lemma place_order_rejected int rq w p :
  currentCustomerPhone w = Some p →
  strip (form_get rq "address" "") = "" ∨
    (strip (form_get rq "phone" "") = "" ∧ p = "") →
  place_order int rq w
    = (redirect "customer_dashboard",
       flash "Phone and Address are required." "error" w).
Proof.
  intros Hp Hbad. unfold place_order, require_customer.
  unfold currentCustomerPhone in Hp. rewrite Hp.
  destruct Hbad as [->|[-> ->]]; [done|]. simpl. by rewrite orb_true_r.
Qed.

(** X18: [place_order] adds a row only for a session with a customer
    phone, an address that is non-empty after trimming and a phone that is
    non-empty in the form (after trimming) or in the session.  For a
    customer whose address is blank or missing, or who has no phone in
    either place, it flashes "Phone and Address are required.", redirects
    to the customer dashboard and changes no table. *)
Theorem place_order_requires_phone_and_address int rq w :
  (orders (snd (place_order int rq w)) ≠ orders w →
   ∃ p, currentCustomerPhone w = Some p ∧
        strip (form_get rq "address" "") ≠ "" ∧
        (strip (form_get rq "phone" "") ≠ "" ∨ p ≠ "")) ∧
  (∀ p, currentCustomerPhone w = Some p →
        strip (form_get rq "address" "") = "" ∨
          (strip (form_get rq "phone" "") = "" ∧ p = "") →
        fst (place_order int rq w) = redirect "customer_dashboard" ∧
        last_flash (snd (place_order int rq w))
          = Some ("error", "Phone and Address are required.") ∧
        orders (snd (place_order int rq w)) = orders w ∧
        users (snd (place_order int rq w)) = users w).
Proof.
  split.
  - intros Hne. destruct (currentCustomerPhone w) as [p|] eqn:Hp.
    + exists p. split; [done|].
      destruct (decide (strip (form_get rq "address" "") = "")) as [Ha|Ha].
      { exfalso. apply Hne. by rewrite (place_order_rejected int _ _ _ Hp (or_introl Ha)). }
      split; [done|].
      destruct (decide (strip (form_get rq "phone" "") = "")) as [Hf|Hf]; [|by left].
      destruct (decide (p = "")) as [->|Hpe]; [|by right].
      exfalso. apply Hne. by rewrite (place_order_rejected int _ _ _ Hp (or_intror (conj Hf eq_refl))).
    + exfalso. apply Hne. unfold place_order, require_customer.
      unfold currentCustomerPhone in Hp. by rewrite Hp.
  - intros p Hp Hbad. rewrite (place_order_rejected int _ _ _ Hp Hbad). simpl.
    split; [done|]. split; [apply last_flash_flash | done].
Qed.

Lemma place_order_requires_phone_and_address_witness :
  fst (place_order sample_int (post [("address", "   "); ("cans", "2")])
         (world_of (customer_session "555-1234"))) = redirect "customer_dashboard" ∧
  orders (snd (place_order sample_int (post [("address", "   "); ("cans", "2")])
                 (world_of (customer_session "555-1234")))) = sample_orders.
Proof.
  destruct (place_order_requires_phone_and_address sample_int
              (post [("address", "   "); ("cans", "2")])
              (world_of (customer_session "555-1234"))) as [_ H].
  destruct (H "555-1234" eq_refl (or_introl eq_refl)) as (H1 & _ & H2 & _).
  exact (conj H1 H2).
Defined.

Lemma place_order_stored_phone int rq w p :
  currentCustomerPhone w = Some p → p ≠ "" →
  strip (form_get rq "address" "") ≠ "" →
  submitted_cans_fit int rq →
  ∃ o, orders (snd (place_order int rq w)) !! next_id (orders w) = Some o ∧
       currentCustomerPhone (snd (place_order int rq w)) = Some p ∧
       Order.customer_phone o
         = (if str_bool (strip (form_get rq "phone" ""))
            then strip (form_get rq "phone" "") else p).
Proof.
  intros Hp Hne Ha Hfit.
  rewrite (place_order_accepts _ _ _ _ Hp Ha (or_intror Hne) Hfit). simpl.
  eexists. rewrite lookup_insert_eq. done.
Qed.

(** X19: for a customer whose address is non-empty after trimming and
    whose submitted [cans], if [int] reads them, fit the integer column,
    [place_order] stores a row, and the phone stored with it is the phone
    of the form, trimmed, when that is non-empty, and the phone of the
    session otherwise.  A customer who places an order without a phone in
    the form can view it; a customer who places it under another phone is
    answered 403 Forbidden when viewing it, and it is not on their
    dashboard. *)
Theorem placed_order_phone_and_view int rq w p :
  currentCustomerPhone w = Some p → p ≠ "" →
  strip (form_get rq "address" "") ≠ "" →
  submitted_cans_fit int rq →
  ∃ o,
    orders (snd (place_order int rq w)) !! next_id (orders w) = Some o ∧
    (strip (form_get rq "phone" "") = "" →
       Order.customer_phone o = p ∧
       ∀ rq', fst (view_order (next_id (orders w)) rq' (snd (place_order int rq w)))
                = render_template (view_order_html (next_id (orders w)) o)) ∧
    (strip (form_get rq "phone" "") ≠ "" →
       Order.customer_phone o = strip (form_get rq "phone" "")) ∧
    (strip (form_get rq "phone" "") ≠ "" → strip (form_get rq "phone" "") ≠ p →
       ∀ rq',
         fst (view_order (next_id (orders w)) rq' (snd (place_order int rq w)))
           = body_status "Forbidden" 403 ∧
         ∀ rows,
           fst (customer_dashboard rq' (snd (place_order int rq w)))
             = render_template (customer_dashboard_html p rows) →
           (next_id (orders w), o) ∉ rows).
Proof.
  intros Hp Hne Ha Hfit.
  destruct (place_order_stored_phone int rq w p Hp Hne Ha Hfit) as (o & Ho & Hp' & Hph).
  exists o. split; [done|]. split_and!.
  - intros Hf. rewrite Hf in Hph. simpl in Hph. split; [done|]. intros rq'.
    rewrite (view_order_cases _ _ _ _ Ho), Hp'. simpl.
    by rewrite bool_decide_false by (rewrite Hph; auto).
  - intros Hf%str_bool_true. by rewrite Hf in Hph.
  - intros Hf Hq rq'. pose proof Hf as Hf'%str_bool_true. rewrite Hf' in Hph. split.
    + rewrite (view_order_cases _ _ _ _ Ho), Hp'. simpl.
      by rewrite bool_decide_true by (rewrite Hph; auto).
    + intros rows Hrows Hin. unfold customer_dashboard, require_customer in Hrows.
      unfold currentCustomerPhone in Hp'. rewrite Hp' in Hrows. simpl in Hrows.
      injection Hrows as <-.
      apply order_by_created_at_desc_elem, list_elem_of_filter in Hin as [Hin _].
      simpl in Hin. congruence.
Qed.

Lemma placed_order_phone_and_view_witness :
  fst (view_order 6 get
         (snd (place_order sample_int
                 (post [("address", "3 Mill Lane"); ("phone", " 555-0000 "); ("cans", "3")])
                 (world_of (customer_session "555-1234")))))
    = body_status "Forbidden" 403.
Proof.
  destruct (placed_order_phone_and_view sample_int
              (post [("address", "3 Mill Lane"); ("phone", " 555-0000 "); ("cans", "3")])
              (world_of (customer_session "555-1234")) "555-1234" eq_refl)
    as (o & _ & _ & _ & H); [discriminate | vm_compute; congruence | |].
  - intros raw n Hraw Hn. vm_compute in Hraw. injection Hraw as <-.
    vm_compute in Hn. injection Hn as <-. unfold sqlite_int. lia.
  - destruct (H ltac:(vm_compute; congruence) ltac:(vm_compute; congruence) get) as [Hv _].
    exact Hv.
Defined.

Lemma staff_is_flash m c w u : staff_is w u → staff_is (flash m c w) u.
Proof. intros (sid & Hs & Hu). by exists sid. Qed.

Lemma staff_is_with_orders f w u : staff_is w u → staff_is (with_orders f w) u.
Proof. intros (sid & Hs & Hu). by exists sid. Qed.

Lemma unknown_order_404 int oid rq w :
  orders w !! oid = None →
  view_order oid rq w = (no_row oid, w) ∧
  ∀ u, staff_is w u →
       enter_payment oid rq w = (no_row oid, w) ∧
       (User.role u = "admin" →
        edit_order int oid rq w = (no_row oid, w) ∧
        delete_order oid rq w = (no_row oid, w)).
Proof.
  intros Ho. split; [unfold view_order; by rewrite Ho|].
  intros u Hu. split; [by eapply enter_payment_unknown|].
  intros Hr. unfold edit_order, delete_order.
  by rewrite !(require_staff_role_ok "admin" _ _ _ _ Hu Hr), Ho.
Qed.



(** X21: after an admin deletes an existing order (its id, the key of a
    row, is a 64-bit integer), the order is gone for good: viewing it,
    recording a payment on it, editing it and deleting it again are all
    answered 404, while every other order is the row it was. *)
Theorem deleted_order_is_gone int oid rq w u o :
  staff_is w u → User.role u = "admin" → orders w !! oid = Some o →
  sqlite_int oid →
  last_flash (snd (delete_order oid rq w)) = Some ("info", "Order deleted.") ∧
  orders (snd (delete_order oid rq w)) !! oid = None ∧
  (∀ j, j ≠ oid → orders (snd (delete_order oid rq w)) !! j = orders w !! j) ∧
  ∀ rq',
    fst (view_order oid rq' (snd (delete_order oid rq w))) = abort 404 ∧
    fst (enter_payment oid rq' (snd (delete_order oid rq w))) = abort 404 ∧
    fst (edit_order int oid rq' (snd (delete_order oid rq w))) = abort 404 ∧
    delete_order oid rq' (snd (delete_order oid rq w))
      = (abort 404, snd (delete_order oid rq w)).
Proof.
  intros Hu Hr Ho Hid.
  assert (delete_order oid rq w
          = (redirect "staff_dashboard",
             flash "Order deleted." "info" (with_orders (λ t, delete oid t) w))) as E.
  { unfold delete_order. by rewrite (require_staff_role_ok "admin" _ _ _ _ Hu Hr), Ho. }
  rewrite E. simpl. split; [apply last_flash_flash|].
  split; [apply lookup_delete_eq|].
  split; [intros j Hj; by rewrite lookup_delete_ne|].
  intros rq'.
  set (w' := flash "Order deleted." "info" (with_orders (λ t, delete oid t) w)).
  assert (orders w' !! oid = None) as Hnone by apply lookup_delete_eq.
  assert (staff_is w' u) as Hu' by by apply staff_is_flash, staff_is_with_orders.
  destruct (unknown_order_404 int oid rq' w' Hnone) as [-> Hs].
  destruct (Hs u Hu') as [-> Ha]. destruct (Ha Hr) as [-> ->].
  by rewrite (no_row_404 _ Hid).
Qed.

Lemma deleted_order_is_gone_witness :
  fst (view_order 5 get (snd (delete_order 5 (post []) (world_of (staff_session 1)))))
    = abort 404.
Proof.
  destruct (deleted_order_is_gone sample_int 5 (post []) (world_of (staff_session 1))
              (User.mk "boss" "pbkdf2:boss" "admin") sample_order)
    as (_ & _ & _ & H);
    [exists 1; split; reflexivity | reflexivity | reflexivity | unfold sqlite_int; lia |].
  destruct (H get) as [Hv _]. exact Hv.
Defined.

(** ** The guards on a session without identity *)

(** X22: a session without a customer phone is sent to the landing page
    by the customer dashboard and by [place_order]; a session without a
    staff id is sent to the staff login by the staff dashboard and by the
    three staff routes on orders, for every role.  In each case nothing
    changes: no row, no identity slot, no flashed message. *)
Theorem guards_turn_away_anonymous int rq w :
  (currentCustomerPhone w = None →
   customer_dashboard rq w = (redirect "index", w) ∧
   place_order int rq w = (redirect "index", w)) ∧
  (currentStaffId w = None →
   staff_dashboard rq w = (redirect "staff_login", w) ∧
   ∀ oid,
     enter_payment oid rq w = (redirect "staff_login", w) ∧
     edit_order int oid rq w = (redirect "staff_login", w) ∧
     delete_order oid rq w = (redirect "staff_login", w)).
Proof.
  split.
  - unfold currentCustomerPhone, customer_dashboard, place_order, require_customer.
    by intros ->.
  - intros Hs. unfold staff_dashboard, enter_payment, edit_order, delete_order.
    split; [by rewrite (require_staff_anonymous _ _ _ _ Hs)|].
    intros oid. by rewrite !(require_staff_anonymous _ _ _ _ Hs).
Qed.

Lemma guards_turn_away_anonymous_witness :
  place_order sample_int (post [("address", "3 Mill Lane"); ("phone", "555-1234")])
    (world_of (staff_session 1))
    = (redirect "index", world_of (staff_session 1)) ∧
  delete_order 5 (post []) (world_of (customer_session "555-9999"))
    = (redirect "staff_login", world_of (customer_session "555-9999")).
Proof.
  split.
  - destruct (guards_turn_away_anonymous sample_int
                (post [("address", "3 Mill Lane"); ("phone", "555-1234")])
                (world_of (staff_session 1))) as [H _].
    destruct (H eq_refl) as [_ Hp]. exact Hp.
  - destruct (guards_turn_away_anonymous sample_int (post [])
                (world_of (customer_session "555-9999"))) as [_ H].
    destruct (H eq_refl) as [_ Hd]. destruct (Hd 5) as (_ & _ & Hdel). exact Hdel.
Defined.

(** ** Editing twice *)

Lemma apply_edit_idem int rq o : apply_edit int rq (apply_edit int rq o) = apply_edit int rq o.
Proof.
  unfold apply_edit, form_get. simpl. f_equal.
  - by destruct (form rq !! "customer_address").
  - destruct (form rq !! "cans") as [raw|]; [|done]. by destruct (int raw).
  - by destruct (form rq !! "payment_method").
  - by destruct (form rq !! "payment_status").
  - by destruct (form rq !! "payment_details").
Qed.

Lemma edit_order_post_cases int oid rq w u o :
  staff_is w u → User.role u = "admin" →
  orders w !! oid = Some o → method rq = POST →
  edit_order int oid rq w =
    if match assigned_cans int rq with
       | Some n => bool_decide (sqlite_int n)
       | None => true
       end
    then (redirect "staff_dashboard",
          flash "Order updated." "success"
            (with_orders (λ t, <[oid := apply_edit int rq o]> t) w))
    else (abort 500, w).
Proof.
  intros Hu Hr Ho Hm. unfold edit_order.
  by rewrite (require_staff_role_ok "admin" _ _ _ _ Hu Hr), Ho, Hm.
Qed.

(** X23: submitting the same edit of an order a second time leaves the
    order table as the first edit left it. *)
Theorem edit_order_twice int oid rq w u o :
  staff_is w u → User.role u = "admin" →
  orders w !! oid = Some o → method rq = POST →
  orders (snd (edit_order int oid rq (snd (edit_order int oid rq w))))
    = orders (snd (edit_order int oid rq w)).
Proof.
  intros Hu Hr Ho Hm. rewrite (edit_order_post_cases int _ _ _ _ _ Hu Hr Ho Hm).
  destruct (match assigned_cans int rq with
            | Some n => bool_decide (sqlite_int n)
            | None => true
            end) eqn:Hfit; simpl.
  - erewrite edit_order_post_cases;
      [| by apply staff_is_flash, staff_is_with_orders | done
       | simpl; apply lookup_insert_eq | done].
    rewrite Hfit. simpl. by rewrite insert_insert_eq, apply_edit_idem.
  - rewrite (edit_order_post_cases int _ _ _ _ _ Hu Hr Ho Hm). by rewrite Hfit.
Qed.

Lemma edit_order_twice_witness :
  orders (snd (edit_order sample_int 5 (post [("cans", "7"); ("payment_status", "paid")])
                 (snd (edit_order sample_int 5 (post [("cans", "7"); ("payment_status", "paid")])
                         (world_of (staff_session 1))))))
    = orders (snd (edit_order sample_int 5 (post [("cans", "7"); ("payment_status", "paid")])
                     (world_of (staff_session 1)))).
Proof.
  apply (edit_order_twice sample_int 5 (post [("cans", "7"); ("payment_status", "paid")])
           (world_of (staff_session 1)) (User.mk "boss" "pbkdf2:boss" "admin")
           sample_order);
    [exists 1; split; reflexivity | reflexivity | reflexivity | reflexivity].
Defined.

